(** * Vision-RAG: the response generator of [models/responder.py]

    A shallow embedding of [generate_response] and of [encode_image].  The
    function is a dispatcher over six backends; everything it calls (the
    Model Provider, the preprocessors, the inference objects, the remote
    clients, PIL, the file system) is a collaborator whose code is not part
    of this module.  Those collaborators are the fields of a [World]:
    functions that answer a call with a value or with a raised exception.
    What the function itself does with the answers (the order of calls, the
    guards, the [try]/[except]/[finally] structure, the arithmetic on the
    sizing hints, the slicing of token lists) is written out below, branch
    by branch, in a state-and-exception monad.

    Conventions of the model.  A collaborator answers the same call the
    same way throughout one call of [generate_response].  The logger and
    [img.close()] do not raise.  The state records the events of the call
    in order, the cache of the Model Provider (the objects [load_model]
    hands out live there, so a change made through a handle is a change of
    the cache), and the PIL images the function holds. *)

From Stdlib Require Import ZArith Lia.
From stdpp Require Import gmap strings list fin_maps.

(** ** Python values that cross the boundary of [generate_response] *)

(** The function is documented to return text, and Python lets it return
    [None]: the value it hands back is whatever the selected branch
    computed. *)
Inductive PyVal :=
| PyStr (s : string)
| PyNone.

(** Truth value of an object in an [if]: [None] and the empty string are
    false. *)
Definition truthy (v : PyVal) : bool :=
  match v with
  | PyStr EmptyString => false
  | PyStr _ => true
  | PyNone => false
  end.

(** An exception, with the text [str(e)] gives for it. *)
Record Exn := Exception { str : string }.

Inductive Result (A : Type) :=
| Ok (a : A)
| Raise (e : Exn).
Arguments Ok {A} a.
Arguments Raise {A} e.

(** ** Data handed to the collaborators *)

(** One part of a chat message: the dictionaries the branches build. *)
Inductive Part :=
| PText (text : string)
    (* {"type": "text", "text": text} *)
| PImage (image : string) (resized_height resized_width : Z)
    (* {"type": "image", "image": ..., "resized_height": ..., "resized_width": ...} *)
| PImageSlot
    (* {"type": "image"} *)
| PImageUrl (url : string).
    (* {"type": "image_url", "image_url": {"url": url}} *)

Record Message := { role : string; content : list Part }.

(** A PIL image held by the function.  [im_id] identifies the object. *)
Record Image := { im_id : nat; im_path : string; im_mode : string }.

(** An item of the content list of the gemini branch: the query text or a
    decoded image. *)
Inductive GeminiItem :=
| GText (text : string)
| GImage (img : Image).

(** Token sequences and batches of them. *)
Abbreviation Tokens := (list Z).

(** What a preprocessor returns: the token ids of the prompt, one row per
    batch entry, and the prepared vision tensors (opaque here). *)
Record BatchFeature := { input_ids : list Tokens; pixel_values : string }.

(** Element types of a tensor, as far as the molmo branch tells them
    apart. *)
Inductive TDtype := float16 | float32 | float64 | int64.

Record Tensor := {
  t_dtype : TDtype;
  t_device : string;
  t_shape : list nat;
  t_data : list Z }.

(** A value of the dictionary [processor.process] returns. *)
Inductive ProcVal :=
| VTensor (t : Tensor)
| VOther (v : string).

(** ** The backend handle *)

(** The inference object.  The one part of its state the function can
    change is the precision of its weights: [torch.nn.Module.half] casts
    the parameters of the module in place and returns the module. *)
Record Model := { weights : string; dtype : TDtype }.

(** What [load_model] hands out.  The preprocessor, the device and the
    sampling configuration are named by opaque descriptors. *)
Record Handle := {
  model : Model;
  processor : string;
  device : string;
  sampling_params : string }.

(** Responses of the two remote clients. *)
Record GenerateContentResponse := { response_text : Result PyVal }.
    (* [response.text] is a property: reading it may raise *)
Record Choice := { message_content : PyVal }.
    (* [choice.message.content] is Optional[str] *)
Record ChatCompletion := { choices : list Choice }.
Record CompletionOutput := { text : string }.
Record RequestOutput := { outputs : list CompletionOutput }.

(** ** Observable events *)

Inductive Level := INFO | WARNING | ERROR.

Inductive Event :=
| Log (lvl : Level) (msg : string)
| LoadModel (key : string)
| Half (key : string)
| PathExists (path : string)
| ImageOpen (path : string)
| FileRead (path : string)
| ImageClose (id : nat)
| ApplyChatTemplate (messages : list Message)
| ProcessVisionInfo (messages : list Message)
| ProcessorCall (images : list Image) (text : string)
| Generate (m : Model) (inputs : BatchFeature) (max_new_tokens : Z)
| GenerateContent (m : Model) (contents : list GeminiItem)
| ChatCompletionsCreate (model_name : string) (messages : list Message) (max_tokens : Z)
| Chat (m : Model) (messages : list Message) (sampling : string)
| GenerateFromBatch (m : Model) (inputs : list (string * ProcVal)) (max_new_tokens : Z).

(** The calls that run a model or reach a remote endpoint. *)
Definition is_inference (e : Event) : bool :=
  match e with
  | Generate _ _ _ | GenerateContent _ _ | ChatCompletionsCreate _ _ _
  | Chat _ _ _ | GenerateFromBatch _ _ _ => true
  | _ => false
  end.

(** The calls that touch the file system. *)
Definition is_file_access (e : Event) : bool :=
  match e with
  | PathExists _ | ImageOpen _ | FileRead _ => true
  | _ => false
  end.

Definition is_load_model (e : Event) : bool :=
  match e with
  | LoadModel _ => true
  | _ => false
  end.

(** ** The collaborators *)

Record World := {
  (* os, PIL, base64 *)
  os_path_join : string -> string -> string;
  os_path_exists : string -> bool;
  os_path_splitext : string -> string * string;
  os_getenv : string -> PyVal;
  open_read : string -> Result string;
      (* open(path, "rb") followed by read() *)
  b64encode : string -> string;
  PIL_open : string -> Result string;
      (* Image.open(path): the mode of the image, or a raise *)
  PIL_convert : string -> string -> Result unit;
      (* .convert(mode) on the image opened from a path *)
  (* Model Provider *)
  load_failure : string -> Exn;
  module_half : Model -> Result unit;
  (* local preprocessors and models *)
  apply_chat_template : string -> list Message -> Result string;
  process_vision_info : list Message -> Result (string * string);
  processor_call : string -> list string -> string * string -> Result BatchFeature;
  processor_call_image : string -> Image -> string -> Result BatchFeature;
  batch_to : BatchFeature -> string -> Result BatchFeature;
  generate : Model -> BatchFeature -> Z -> Result (list Tokens);
  batch_decode : string -> list Tokens -> Result (list string);
  decode : string -> Tokens -> Result string;
  chat : Model -> list Message -> string -> Result (list RequestOutput);
  processor_process : string -> list Image -> string -> Result (list (string * ProcVal));
  tensor_to : Tensor -> string -> Result Tensor;
  generate_from_batch :
    Model -> list (string * ProcVal) -> Z -> string -> string -> Result (list Tokens);
      (* model, inputs, max_new_tokens, stop_strings, tokenizer *)
  tokenizer_decode : string -> Tokens -> Result string;
  (* remote clients *)
  generate_content : Model -> list GeminiItem -> Result GenerateContentResponse;
  OpenAI : PyVal -> Result string;
  chat_completions_create :
    string -> string -> list Message -> Z -> Result ChatCompletion }.

(** ** State and the monad of the embedding *)

Record State := {
  trace : list Event;
      (* events so far, oldest first *)
  handles : gmap string Handle;
      (* the cache of the Model Provider *)
  images_open : list nat;
      (* PIL images obtained and not closed *)
  next_image : nat }.

Definition M (A : Type) : Type := State -> Result A * State.

Definition ret {A} (a : A) : M A := fun s => (Ok a, s).

Definition raise {A} (e : Exn) : M A := fun s => (Raise e, s).

Definition bind {A B} (m : M A) (k : A -> M B) : M B :=
  fun s =>
    match m s with
    | (Ok a, s') => k a s'
    | (Raise e, s') => (Raise e, s')
    end.

Declare Scope py_scope.
Delimit Scope py_scope with py.
Notation "x <- m ;; k" := (bind m (fun x => k))
  (at level 100, m at next level, k at level 200, right associativity) : py_scope.
Notation "m ;;; k" := (bind m (fun _ => k))
  (at level 100, k at level 200, right associativity) : py_scope.
Local Open Scope py_scope.

(** [try: body except Exception as e: handler e] *)
Definition try_except {A} (body : M A) (handler : Exn -> M A) : M A :=
  fun s =>
    match body s with
    | (Ok a, s') => (Ok a, s')
    | (Raise e, s') => handler e s'
    end.

(** [try: body finally: cleanup]: the cleanup runs on every way out of the
    body; when it raises, its exception replaces the outcome of the body. *)
Definition try_finally {A} (body : M A) (cleanup : M unit) : M A :=
  fun s =>
    match body s with
    | (r, s') =>
        match cleanup s' with
        | (Ok _, s'') => (r, s'')
        | (Raise e, s'') => (Raise e, s'')
        end
    end.

(** The answer of a collaborator, taken into the monad. *)
Definition lift {A} (r : Result A) : M A := fun s => (r, s).

Definition emit (e : Event) : M unit :=
  fun s =>
    (Ok tt, {| trace := trace s ++ [e]; handles := handles s;
               images_open := images_open s; next_image := next_image s |}).

(** A call to a collaborator that leaves an event. *)
Definition call {A} (e : Event) (r : Result A) : M A := emit e ;;; lift r.

(** [for x in xs: acc = body acc x] *)
Fixpoint for_each {A S} (xs : list A) (body : S -> A -> M S) (acc : S) : M S :=
  match xs with
  | [] => ret acc
  | x :: xs' => acc' <- body acc x ;; for_each xs' body acc'
  end.

(** [xs[i]] *)
Definition index {A} (xs : list A) (i : nat) : M A :=
  match xs !! i with
  | Some x => ret x
  | None => raise (Exception "list index out of range")
  end.

Definition logger (lvl : Level) (msg : string) : M unit := emit (Log lvl msg).

(** ** The function, branch by branch *)

Section Responder.

Context (w : World).

Definition set_images_open (f : list nat -> list nat) (bump : nat) : M unit :=
  fun s =>
    (Ok tt, {| trace := trace s; handles := handles s;
               images_open := f (images_open s);
               next_image := (next_image s + bump)%nat |}).

(** The object an expression on [Image.open] evaluates to is registered
    as held once the whole expression has been evaluated. *)
Definition new_image (path mode : string) : M Image :=
  fun s =>
    let img := {| im_id := next_image s; im_path := path; im_mode := mode |} in
    match set_images_open (fun l => l ++ [next_image s]) 1 s with
    | (_, s') => (Ok img, s')
    end.

(** [Image.open(path)] *)
Definition Image_open (path : string) : M Image :=
  mode <- call (ImageOpen path) (PIL_open w path) ;;
  new_image path mode.

(** [Image.open(path).convert(mode)] *)
Definition Image_open_convert (path mode : string) : M Image :=
  _ <- call (ImageOpen path) (PIL_open w path) ;;
  lift (PIL_convert w path mode) ;;;
  new_image path mode.

(** [img.close()] *)
Definition Image_close (img : Image) : M unit :=
  emit (ImageClose (im_id img)) ;;;
  set_images_open (filter (fun i => i ≠ im_id img)) 0.

(** [load_model(key)]: the Model Provider answers from its cache; a key it
    cannot serve is a raise. *)
Definition load_model (key : string) : M Handle :=
  emit (LoadModel key) ;;;
  fun s =>
    match handles s !! key with
    | Some h => (Ok h, s)
    | None => (Raise (load_failure w key), s)
    end.

Definition to_half (m : Model) : Model :=
  {| weights := weights m; dtype := float16 |}.

Definition handle_half (h : Handle) : Handle :=
  {| model := to_half (model h); processor := processor h;
     device := device h; sampling_params := sampling_params h |}.

(** [model.half()] on the model cached under [key]: the cast happens in
    the cached object, and the call returns that object. *)
Definition half (key : string) (m : Model) : M Model :=
  call (Half key) (module_half w m) ;;;
  fun s =>
    (Ok (to_half m),
     {| trace := trace s; handles := alter handle_half key (handles s);
        images_open := images_open s; next_image := next_image s |}).

(** [encode_image(image_path)] *)
Definition encode_image (image_path : string) : M string :=
  data <- call (FileRead image_path) (open_read w image_path) ;;
  ret (b64encode w data).

Definition NO_IMAGES : string := "No images could be loaded for analysis.".

Definition qwen_messages (images : list string) (query : string)
    (resized_height resized_width : Z) : list Message :=
  let resized_height := (resized_height / 28 * 28)%Z in
  let resized_width := (resized_width / 28 * 28)%Z in
  let image_contents :=
    map (fun image => PImage (os_path_join w "static" image)
                             resized_height resized_width) images in
  [ {| role := "user"; content := image_contents ++ [PText query] |} ].

Definition qwen (images : list string) (query : string)
    (resized_height resized_width : Z) : M PyVal :=
  h <- load_model "qwen" ;;
  let messages := qwen_messages images query resized_height resized_width in
  text <- call (ApplyChatTemplate messages)
               (apply_chat_template w (processor h) messages) ;;
  vision <- call (ProcessVisionInfo messages) (process_vision_info w messages) ;;
  inputs <- lift (processor_call w (processor h) [text] vision) ;;
  inputs <- lift (batch_to w inputs (device h)) ;;
  generated_ids <- call (Generate (model h) inputs 128)
                        (generate w (model h) inputs 128) ;;
  let generated_ids_trimmed :=
    map (fun io => drop (length io.1) io.2)
        (zip (input_ids inputs) generated_ids) in
  output_text <- lift (batch_decode w (processor h) generated_ids_trimmed) ;;
  logger INFO "Response generated using Qwen model." ;;;
  answer <- index output_text 0 ;;
  ret (PyStr answer).

Definition gemini (images : list string) (query : string) : M PyVal :=
  h <- load_model "gemini" ;;
  try_except
    (content <-
       for_each images
         (fun content img_path =>
            let full_path := os_path_join w "static" img_path in
            found <- call (PathExists full_path) (Ok (os_path_exists w full_path)) ;;
            if found : bool then
              try_except
                (img <- Image_open full_path ;;
                 ret (content ++ [GImage img]))
                (fun e =>
                   logger ERROR
                     ("Error opening image " +:+ full_path +:+ ": " +:+ str e) ;;;
                   ret content)
            else
              logger WARNING ("Image file not found: " +:+ full_path) ;;;
              ret content)
         [GText query] ;;
     if (length content =? 1)%nat then ret (PyStr NO_IMAGES)
     else
       response <- call (GenerateContent (model h) content)
                        (generate_content w (model h) content) ;;
       t <- lift (response_text response) ;;
       if truthy t then
         generated_text <- lift (response_text response) ;;
         logger INFO "Response generated using Gemini model." ;;;
         ret generated_text
       else ret (PyStr "The Gemini model did not generate any text response."))
    (fun e =>
       logger ERROR ("Error in Gemini processing: " +:+ str e) ;;;
       ret (PyStr ("An error occurred while processing the images: " +:+ str e))).

Definition gpt4 (images : list string) (query : string) : M PyVal :=
  let api_key := os_getenv w "OPENAI_API_KEY" in
  client <- lift (OpenAI w api_key) ;;
  try_except
    (content <-
       for_each images
         (fun content img_path =>
            let full_path := os_path_join w "static" img_path in
            found <- call (PathExists full_path) (Ok (os_path_exists w full_path)) ;;
            if found : bool then
              base64_image <- encode_image full_path ;;
              ret (content ++ [PImageUrl ("data:image/jpeg;base64," +:+ base64_image)])
            else
              logger WARNING ("Image file not found: " +:+ full_path) ;;;
              ret content)
         [PText query] ;;
     if (length content =? 1)%nat then ret (PyStr NO_IMAGES)
     else
       let messages := [ {| role := "user"; content := content |} ] in
       response <- call (ChatCompletionsCreate "gpt-4o" messages 1024)
                        (chat_completions_create w client "gpt-4o" messages 1024) ;;
       choice <- index (choices response) 0 ;;
       let generated_text := message_content choice in
       logger INFO "Response generated using GPT-4 model." ;;;
       ret generated_text)
    (fun e =>
       logger ERROR ("Error in GPT-4 processing: " +:+ str e) ;;;
       ret (PyStr ("An error occurred while processing the images: " +:+ str e))).

Definition llama_vision (images : list string) (query : string) : M PyVal :=
  h <- load_model "llama-vision" ;;
  let image_paths := map (fun image => os_path_join w "static" image) images in
  image_path <- index image_paths 0 ;;
  image <- Image_open_convert image_path "RGB" ;;
  let messages :=
    [ {| role := "user"; content := [PImageSlot; PText query] |} ] in
  input_text <- call (ApplyChatTemplate messages)
                     (apply_chat_template w (processor h) messages) ;;
  inputs <- call (ProcessorCall [image] input_text)
                 (processor_call_image w (processor h) image input_text) ;;
  inputs <- lift (batch_to w inputs (device h)) ;;
  output <- call (Generate (model h) inputs 512)
                 (generate w (model h) inputs 512) ;;
  first <- index output 0 ;;
  response <- lift (decode w (processor h) first) ;;
  ret (PyStr response).

(** [s[1:]] on a string *)
Definition str_tail (s : string) : string :=
  match s with
  | EmptyString => EmptyString
  | String _ rest => rest
  end.

(** The local function of the pixtral branch. *)
Definition image_to_data_url (image_path : string) : M string :=
  let image_path := os_path_join w "static" image_path in
  data <- call (FileRead image_path) (open_read w image_path) ;;
  let encoded_string := b64encode w data in
  let ext := str_tail (os_path_splitext w image_path).2 in
  ret ("data:image/" +:+ ext +:+ ";base64," +:+ encoded_string).

(** [enumerate(xs)] *)
Definition enumerate {A} (xs : list A) : list (nat * A) :=
  zip (seq 0 (length xs)) xs.

Definition pixtral (images : list string) (query : string) : M PyVal :=
  h <- load_model "pixtral" ;;
  image_parts <-
    for_each (enumerate images)
      (fun parts i_img =>
         if (i_img.1 <? 1)%nat then
           url <- image_to_data_url i_img.2 ;;
           ret (parts ++ [PImageUrl url])
         else ret parts)
      [] ;;
  let messages :=
    [ {| role := "user"; content := PText query :: image_parts |} ] in
  outs <- call (Chat (model h) messages (sampling_params h))
               (chat w (model h) messages (sampling_params h)) ;;
  first <- index outs 0 ;;
  completion <- index (outputs first) 0 ;;
  ret (PyStr (text completion)).

(** Tensor methods used by the molmo branch. *)
Definition unsqueeze0 (t : Tensor) : Tensor :=
  {| t_dtype := t_dtype t; t_device := t_device t;
     t_shape := 1%nat :: t_shape t; t_data := t_data t |}.

Definition tensor_half (t : Tensor) : Tensor :=
  {| t_dtype := float16; t_device := t_device t;
     t_shape := t_shape t; t_data := t_data t |}.

Definition is_float32_or_64 (d : TDtype) : bool :=
  match d with
  | float32 | float64 => true
  | _ => false
  end.

(** One entry of the dictionary comprehension that moves the inputs to
    the device. *)
Definition to_batch (dev : string) (kv : string * ProcVal) : M (string * ProcVal) :=
  match kv.2 with
  | VTensor v =>
      moved <- lift (tensor_to w v dev) ;;
      if is_float32_or_64 (t_dtype v)
      then ret (kv.1, VTensor (tensor_half (unsqueeze0 moved)))
      else ret (kv.1, VTensor (unsqueeze0 moved))
  | VOther _ => ret kv
  end.

(** [d[key]] on a dictionary kept as an association list *)
Fixpoint dict_get (d : list (string * ProcVal)) (key : string) : M ProcVal :=
  match d with
  | [] => raise (Exception ("'" +:+ key +:+ "'"))
  | (k, v) :: d' => if String.eqb k key then ret v else dict_get d' key
  end.

(** [v.size(dim)] *)
Definition tensor_size (v : ProcVal) (dim : nat) : M nat :=
  match v with
  | VTensor t =>
      match t_shape t !! dim with
      | Some n => ret n
      | None => raise (Exception "Dimension out of range")
      end
  | VOther _ => raise (Exception "object has no attribute 'size'")
  end.

(** The guarded block of the molmo branch: [try: ... except Exception as e:
    ...], entered once at least one image is held. *)
Definition molmo_try (h : Handle) (model : Model) (pil_images : list Image)
    (query : string) : M PyVal :=
  try_except
    (inputs <- lift (processor_process w (processor h) pil_images query) ;;
     inputs <-
       for_each inputs
         (fun moved kv => kv' <- to_batch (device h) kv ;; ret (moved ++ [kv']))
         [] ;;
     output <- call (GenerateFromBatch model inputs 200)
                    (generate_from_batch w model inputs 200
                       "<|endoftext|>" (processor h)) ;;
     ids <- dict_get inputs "input_ids" ;;
     prompt_len <- tensor_size ids 1 ;;
     row <- index output 0 ;;
     let generated_tokens := drop prompt_len row in
     generated_text <-
       lift (tokenizer_decode w (processor h) generated_tokens) ;;
     ret (PyStr generated_text))
    (fun e =>
       logger ERROR ("Error in Molmo processing: " +:+ str e) ;;;
       ret (PyStr ("An error occurred while processing the images: "
                   +:+ str e))).

Definition molmo (images : list string) (query : string) : M PyVal :=
  h <- load_model "molmo" ;;
  model <- half "molmo" (model h) ;;
  pil_images <-
    for_each (take 1 images)
      (fun pil_images img_path =>
         let full_path := os_path_join w "static" img_path in
         found <- call (PathExists full_path) (Ok (os_path_exists w full_path)) ;;
         if found : bool then
           try_except
             (img <- Image_open_convert full_path "RGB" ;;
              ret (pil_images ++ [img]))
             (fun e =>
                logger ERROR
                  ("Error opening image " +:+ full_path +:+ ": " +:+ str e) ;;;
                ret pil_images)
         else
           logger WARNING ("Image file not found: " +:+ full_path) ;;;
           ret pil_images)
      [] ;;
  match pil_images with
  | [] => ret (PyStr NO_IMAGES)
  | _ :: _ =>
      try_finally
        (molmo_try h model pil_images query)
        (for_each pil_images (fun _ img => Image_close img) tt)
  end.

Definition generate_response (images : list string) (query : string)
    (session_id : string) (resized_height resized_width : Z)
    (model_choice : string) : M PyVal :=
  try_except
    (logger INFO ("Generating response using model '" +:+ model_choice +:+ "'.") ;;;
     if String.eqb model_choice "qwen" then
       qwen images query resized_height resized_width
     else if String.eqb model_choice "gemini" then gemini images query
     else if String.eqb model_choice "gpt4" then gpt4 images query
     else if String.eqb model_choice "llama-vision" then llama_vision images query
     else if String.eqb model_choice "pixtral" then pixtral images query
     else if String.eqb model_choice "molmo" then molmo images query
     else
       logger ERROR ("Invalid model choice: " +:+ model_choice) ;;;
       ret (PyStr "Invalid model selected."))
    (fun e =>
       logger ERROR ("Error generating response: " +:+ str e) ;;;
       ret (PyStr "An error occurred while generating the response.")).

End Responder.

(** A call starts with nothing logged and no image held; the cache of the
    Model Provider is whatever the process has loaded so far. *)
Definition initial (cache : gmap string Handle) : State :=
  {| trace := []; handles := cache; images_open := []; next_image := 0 |}.

Definition run {A} (cache : gmap string Handle) (m : M A) : Result A * State :=
  m (initial cache).

(** ** Vocabulary of the statements *)

(** The closed set of backend keys the dispatcher tests for. *)
Definition backends : list string :=
  ["qwen"; "gemini"; "gpt4"; "llama-vision"; "pixtral"; "molmo"].

Definition GENERIC_FAILURE : string :=
  "An error occurred while generating the response.".

(** [steps R m]: whatever [m] does, and however it ends, the state it
    leaves is related by [R] to the state it started in. *)
Definition steps (R : relation State) {A} (m : M A) : Prop :=
  forall s, R s (m s).2.

(** [returns P m]: a value [m] returns normally satisfies [P]. *)
Definition returns {A} (P : A -> Prop) (m : M A) : Prop :=
  forall s a s', m s = (Ok a, s') -> P a.

(** The cache of the Model Provider is as it was. *)
Definition same_handles : relation State :=
  fun s s' => handles s' = handles s.

(** The images held are as they were. *)
Definition same_images : relation State :=
  fun s s' =>
    images_open s' = images_open s /\ next_image s' = next_image s /\
    trace s `prefix_of` trace s'.

(** An event that is not an inference call. *)
Definition quiet (e : Event) : Prop := is_inference e = false.

Definition is_str (v : PyVal) : Prop := exists s, v = PyStr s.


(** The branch [model_choice] gets hold of its inference object: the Model
    Provider serves the key (and, for molmo, the cast to half precision
    goes through); for gpt4, the client can be built from the
    environment. *)
Definition handle_ready (w : World) (cache : gmap string Handle)
    (model_choice : string) : Prop :=
  (model_choice = "gemini" /\ is_Some (cache !! "gemini")) \/
  (model_choice = "gpt4" /\
     exists client, OpenAI w (os_getenv w "OPENAI_API_KEY") = Ok client) \/
  (model_choice = "molmo" /\
     exists h, cache !! "molmo" = Some h /\ module_half w (model h) = Ok tt).

(** The cache is as it was, or the branch is molmo and the one change is
    the cast of the model cached under "molmo" to half precision. *)
Definition cast_only (model_choice : string) : relation State :=
  fun s s' =>
    handles s' = handles s \/
    (model_choice = "molmo" /\
     handles s' = alter handle_half "molmo" (handles s)).

(** No event of the class [f] is added to the trace. *)
Definition unchanged (f : Event -> bool) : relation State :=
  fun s s' => List.filter f (trace s') = List.filter f (trace s).



Definition is_close (e : Event) : bool :=
  match e with
  | ImageClose _ => true
  | _ => false
  end.

(** No image is closed, and every image obtained is held. *)
Definition holds_on : relation State :=
  fun s s' =>
    (next_image s <= next_image s')%nat /\
    images_open s' =
      images_open s ++ seq (next_image s) (next_image s' - next_image s) /\
    unchanged is_close s s'.

(** The images the gemini branch comes to hold for a list of identifiers,
    numbered from [n]: one for each identifier whose file exists under the
    static root and opens in PIL, in the order of the list. *)
Fixpoint opened_images (w : World) (n : nat) (images : list string) : list Image :=
  match images with
  | [] => []
  | image :: rest =>
      let full_path := os_path_join w "static" image in
      if os_path_exists w full_path then
        match PIL_open w full_path with
        | Ok mode =>
            {| im_id := n; im_path := full_path; im_mode := mode |}
              :: opened_images w (S n) rest
        | Raise _ => opened_images w n rest
        end
      else opened_images w n rest
  end.

Definition is_ok {A} (r : Result A) : bool :=
  match r with
  | Ok _ => true
  | Raise _ => false
  end.

Definition GEMINI_NO_TEXT : string :=
  "The Gemini model did not generate any text response.".

Definition ADAPTER_FAILURE (e : Exn) : string :=
  "An error occurred while processing the images: " +:+ str e.

(** The image parts the gpt4 branch builds for a list of identifiers whose
    existing files can all be read: one JPEG data URL for each identifier
    whose file exists under the static root, in the order of the list. *)
Definition gpt4_image_parts (w : World) (images : list string) : list Part :=
  concat
    (map (fun image =>
            let full_path := os_path_join w "static" image in
            if os_path_exists w full_path then
              match open_read w full_path with
              | Ok data =>
                  [PImageUrl ("data:image/jpeg;base64," +:+ b64encode w data)]
              | Raise _ => []
              end
            else [])
         images).

(** An identifier the gpt4 branch gets past: no file of that name, or a
    file it can read. *)
Definition passable (w : World) (image : string) : Prop :=
  let full_path := os_path_join w "static" image in
  os_path_exists w full_path = false \/
  is_ok (open_read w full_path) = true.

(** The entry the outer handler of generate_response logs. *)
Definition is_outer_log (e : Event) : bool :=
  match e with
  | Log ERROR msg => String.prefix "Error generating response: " msg
  | _ => false
  end.

(** As [demo_world], with three files under the static root, of which
    [static/locked.png] cannot be read and [static/broken.png] cannot be
    decoded, and with remote endpoints and local models that fail with
    [e]. *)
Definition faulty_world (e : Exn) : World :=
  {| os_path_join := fun a b => a +:+ "/" +:+ b;
     os_path_exists := fun p =>
       String.eqb p "static/a.png" || String.eqb p "static/locked.png"
       || String.eqb p "static/broken.png";
     os_path_splitext := fun p => (p, ".png");
     os_getenv := fun _ => PyStr "key";
     open_read := fun p =>
       if String.eqb p "static/locked.png" then Raise e else Ok "bytes";
     b64encode := fun s => s;
     PIL_open := fun p =>
       if String.eqb p "static/broken.png" then Raise e else Ok "RGBA";
     PIL_convert := fun _ _ => Ok tt;
     load_failure := fun key => Exception ("cannot load " +:+ key);
     module_half := fun _ => Ok tt;
     apply_chat_template := fun _ _ => Ok "prompt";
     process_vision_info := fun _ => Ok ("images", "videos");
     processor_call := fun _ _ _ =>
       Ok {| input_ids := [[1; 2; 3]%Z]; pixel_values := "pixels" |};
     processor_call_image := fun _ _ _ =>
       Ok {| input_ids := [[1; 2; 3]%Z]; pixel_values := "pixels" |};
     batch_to := fun b _ => Ok b;
     generate := fun _ _ _ => Raise e;
     batch_decode := fun _ rows => Ok (map (fun _ => "a description") rows);
     decode := fun _ _ => Ok "a description";
     chat := fun _ _ _ => Raise e;
     processor_process := fun _ _ _ => Raise e;
     tensor_to := fun t dev => Ok t;
     generate_from_batch := fun _ _ _ _ _ => Raise e;
     tokenizer_decode := fun _ _ => Ok "a description";
     generate_content := fun _ _ => Raise e;
     OpenAI := fun _ => Ok "client";
     chat_completions_create := fun _ _ _ _ => Raise e |}.

(** ** Concrete collaborators, for evaluating the function *)

Definition demo_handle : Handle :=
  {| model := {| weights := "weights"; dtype := float32 |};
     processor := "processor"; device := "cuda:0";
     sampling_params := "sampling" |}.

Definition demo_cache : gmap string Handle :=
  <["qwen" := demo_handle]> (<["gemini" := demo_handle]>
  (<["llama-vision" := demo_handle]> (<["pixtral" := demo_handle]>
  (<["molmo" := demo_handle]> ∅)))).

(** Every collaborator answers; the only file under the static root is
    [static/a.png]; the remote endpoints answer with the given text
    fields. *)
Definition demo_world (gemini_text gpt4_content : PyVal) : World :=
  {| os_path_join := fun a b => a +:+ "/" +:+ b;
     os_path_exists := fun p => String.eqb p "static/a.png";
     os_path_splitext := fun p => (p, ".png");
     os_getenv := fun _ => PyStr "key";
     open_read := fun _ => Ok "bytes";
     b64encode := fun s => s;
     PIL_open := fun _ => Ok "RGBA";
     PIL_convert := fun _ _ => Ok tt;
     load_failure := fun key => Exception ("cannot load " +:+ key);
     module_half := fun _ => Ok tt;
     apply_chat_template := fun _ _ => Ok "prompt";
     process_vision_info := fun _ => Ok ("images", "videos");
     processor_call := fun _ _ _ =>
       Ok {| input_ids := [[1; 2; 3]%Z]; pixel_values := "pixels" |};
     processor_call_image := fun _ _ _ =>
       Ok {| input_ids := [[1; 2; 3]%Z]; pixel_values := "pixels" |};
     batch_to := fun b _ => Ok b;
     generate := fun _ _ _ => Ok [[1; 2; 3; 4; 5]%Z];
     batch_decode := fun _ rows => Ok (map (fun _ => "a description") rows);
     decode := fun _ _ => Ok "a description";
     chat := fun _ _ _ => Ok [ {| outputs := [ {| text := "a description" |} ] |} ];
     processor_process := fun _ _ _ =>
       Ok [("input_ids",
            VTensor {| t_dtype := int64; t_device := "cpu";
                       t_shape := [3%nat]; t_data := [1; 2; 3]%Z |})];
     tensor_to := fun t dev =>
       Ok {| t_dtype := t_dtype t; t_device := dev;
             t_shape := t_shape t; t_data := t_data t |};
     generate_from_batch := fun _ _ _ _ _ => Ok [[1; 2; 3; 4; 5]%Z];
     tokenizer_decode := fun _ _ => Ok "a description";
     generate_content := fun _ _ => Ok {| response_text := Ok gemini_text |};
     OpenAI := fun _ => Ok "client";
     chat_completions_create := fun _ _ _ _ =>
       Ok {| choices := [ {| message_content := gpt4_content |} ] |} |}.

(** ** Evaluating the embedding *)

Create HintDb py discriminated.
#[local] Hint Unfold run initial generate_response qwen gemini gpt4
  llama_vision pixtral molmo bind ret raise try_except try_finally lift emit
  call logger index load_model half encode_image Image_open
  Image_open_convert Image_close new_image set_images_open
  image_to_data_url qwen_messages : py.

Ltac run_py :=
  repeat (progress (autounfold with py;
                    cbn -[gmap_lookup gmap_partial_alter String.append];
                    simpl String.eqb)).

(** Case analysis on the answer of the next collaborator. *)
Ltac case_py :=
  match goal with
  | |- context [match ?x with Ok _ => _ | Raise _ => _ end] =>
      lazymatch x with
      | context [match _ with _ => _ end] => fail
      | _ => destruct x eqn:?
      end
  | |- context [match ?x with Some _ => _ | None => _ end] =>
      lazymatch x with
      | context [match _ with _ => _ end] => fail
      | _ => destruct x eqn:?
      end
  | |- context [if ?x then _ else _] =>
      lazymatch x with
      | context [match _ with _ => _ end] => fail
      | _ => destruct x eqn:?
      end
  end.

(** ** Frame rules of the monad *)

Section Frame.

Context (R : relation State) `{!PreOrder R}.

Lemma steps_ret {A} (a : A) : steps R (ret a).
Proof. intros s. reflexivity. Qed.

Lemma steps_raise {A} (e : Exn) : steps R (@raise A e).
Proof. intros s. reflexivity. Qed.

Lemma steps_lift {A} (r : Result A) : steps R (lift r).
Proof. intros s. reflexivity. Qed.

Lemma steps_bind {A B} (m : M A) (k : A -> M B) :
  steps R m -> (forall a, steps R (k a)) -> steps R (bind m k).
Proof.
  intros Hm Hk s. unfold bind. specialize (Hm s).
  destruct (m s) as [[a | e] s1]; simpl in *; [| exact Hm].
  etransitivity; [exact Hm | apply Hk].
Qed.

Lemma steps_try_except {A} (body : M A) (handler : Exn -> M A) :
  steps R body -> (forall e, steps R (handler e)) ->
  steps R (try_except body handler).
Proof.
  intros Hb Hh s. unfold try_except. specialize (Hb s).
  destruct (body s) as [[a | e] s1]; simpl in *; [exact Hb |].
  etransitivity; [exact Hb | apply Hh].
Qed.

Lemma steps_try_finally {A} (body : M A) (cleanup : M unit) :
  steps R body -> steps R cleanup -> steps R (try_finally body cleanup).
Proof.
  intros Hb Hc s. unfold try_finally. specialize (Hb s).
  destruct (body s) as [r s1]. specialize (Hc s1).
  destruct (cleanup s1) as [[u | e] s2]; simpl in *;
    (etransitivity; [exact Hb | exact Hc]).
Qed.

Lemma steps_for_each {A S} (xs : list A) (body : S -> A -> M S) :
  (forall acc x, steps R (body acc x)) ->
  forall acc, steps R (for_each xs body acc).
Proof.
  intros Hbody. induction xs as [| x xs IH]; intros acc; simpl.
  - apply steps_ret.
  - apply steps_bind; [apply Hbody | intros acc'; apply IH].
Qed.

Lemma steps_index {A} (xs : list A) (i : nat) : steps R (index xs i).
Proof. unfold index. destruct (xs !! i); [apply steps_ret | apply steps_raise]. Qed.

Lemma steps_dict_get d key : steps R (dict_get d key).
Proof.
  induction d as [| [k v] d IH]; simpl; [apply steps_raise |].
  destruct (String.eqb k key); [apply steps_ret | exact IH].
Qed.

Lemma steps_tensor_size v dim : steps R (tensor_size v dim).
Proof.
  destruct v as [t | o]; simpl; [| apply steps_raise].
  destruct (t_shape t !! dim); [apply steps_ret | apply steps_raise].
Qed.

End Frame.

#[export] Instance same_handles_preorder : PreOrder same_handles.
Proof.
  split; [intros s; reflexivity |].
  intros s1 s2 s3 H12 H23. unfold same_handles in *. congruence.
Qed.

#[export] Instance same_images_preorder : PreOrder same_images.
Proof.
  split; [intros s; repeat split; reflexivity |].
  intros s1 s2 s3 (Ha & Hb & Hp) (Hc & Hd & Hq). unfold same_images.
  repeat split; [congruence | congruence | by etransitivity].
Qed.


(** *** The primitive actions *)

Lemma same_handles_emit e : steps same_handles (emit e).
Proof. intros s. reflexivity. Qed.

Lemma same_handles_set_images_open f bump :
  steps same_handles (set_images_open f bump).
Proof. intros s. reflexivity. Qed.

Lemma same_handles_new_image path mode :
  steps same_handles (new_image path mode).
Proof. intros s. reflexivity. Qed.

Lemma same_handles_load_model w key : steps same_handles (load_model w key).
Proof.
  intros s. unfold load_model, bind, emit. simpl.
  destruct (_ !! key); reflexivity.
Qed.

Lemma same_images_emit e : steps same_images (emit e).
Proof. intros s. repeat split. by exists [e]. Qed.

Lemma same_images_load_model w key : steps same_images (load_model w key).
Proof.
  intros s. unfold load_model, bind, emit. simpl.
  destruct (_ !! key); repeat split; by exists [LoadModel key].
Qed.

Create HintDb frame discriminated.
#[export] Hint Resolve same_handles_emit same_handles_set_images_open
  same_handles_new_image same_handles_load_model same_images_emit
  same_images_load_model : frame.

(** Walks through a computation built from the combinators. *)
Ltac frame :=
  repeat first
    [ solve [eauto with frame]
    | apply steps_ret; tc_solve
    | apply steps_raise; tc_solve
    | apply steps_lift; tc_solve
    | apply steps_index; tc_solve
    | apply steps_dict_get; tc_solve
    | apply steps_tensor_size; tc_solve
    | apply steps_bind; [tc_solve | | intros ?]
    | apply steps_try_except; [tc_solve | | intros ?]
    | apply steps_try_finally; [tc_solve | |]
    | apply steps_for_each; [tc_solve | intros ? ?]
    | match goal with
      | |- steps _ (if ?b then _ else _) => destruct b
      | |- steps _ (match ?x with _ => _ end) => destruct x
      end
    | progress cbv zeta
    | progress unfold call, logger, encode_image, Image_open,
        Image_open_convert, Image_close, image_to_data_url, to_batch ].

Lemma same_handles_qwen w images query rh rw :
  steps same_handles (qwen w images query rh rw).
Proof. unfold qwen. frame. Qed.

Lemma same_handles_gemini w images query :
  steps same_handles (gemini w images query).
Proof. unfold gemini. frame. Qed.

Lemma same_handles_gpt4 w images query :
  steps same_handles (gpt4 w images query).
Proof. unfold gpt4. frame. Qed.

Lemma same_handles_llama_vision w images query :
  steps same_handles (llama_vision w images query).
Proof. unfold llama_vision. frame. Qed.

Lemma same_handles_pixtral w images query :
  steps same_handles (pixtral w images query).
Proof. unfold pixtral. frame. Qed.

Lemma steps_weaken (R R' : relation State) {A} (m : M A) :
  (forall s s', R s s' -> R' s s') -> steps R m -> steps R' m.
Proof. intros Hsub Hm s. apply Hsub, Hm. Qed.

Lemma handle_half_idemp h : handle_half (handle_half h) = handle_half h.
Proof. reflexivity. Qed.

Lemma alter_handle_half_idemp key (m : gmap string Handle) :
  alter handle_half key (alter handle_half key m) = alter handle_half key m.
Proof.
  apply map_eq. intros k. destruct (decide (key = k)) as [-> | Hne].
  - rewrite !lookup_alter_eq. destruct (m !! k); reflexivity.
  - by rewrite !lookup_alter_ne.
Qed.

#[export] Instance cast_only_preorder mc : PreOrder (cast_only mc).
Proof.
  split.
  - intros s. by left.
  - intros s1 s2 s3 [H12 | [Hm H12]] [H23 | [Hm' H23]]; unfold cast_only;
      rewrite H23, H12.
    + left. reflexivity.
    + right. split; [exact Hm' | reflexivity].
    + right. split; [exact Hm | reflexivity].
    + right. split; [exact Hm |]. apply alter_handle_half_idemp.
Qed.

Lemma cast_only_same mc {A} (m : M A) :
  steps same_handles m -> steps (cast_only mc) m.
Proof. apply steps_weaken. intros s s' H. by left. Qed.

Lemma cast_only_half w m : steps (cast_only "molmo") (half w "molmo" m).
Proof.
  intros s. unfold half, call, bind, emit, lift. simpl.
  destruct (module_half w m); simpl; [by right | by left].
Qed.

Lemma cast_only_emit mc e : steps (cast_only mc) (emit e).
Proof. apply cast_only_same, same_handles_emit. Qed.

Lemma cast_only_set_images_open mc f bump :
  steps (cast_only mc) (set_images_open f bump).
Proof. apply cast_only_same, same_handles_set_images_open. Qed.

Lemma cast_only_new_image mc path mode :
  steps (cast_only mc) (new_image path mode).
Proof. apply cast_only_same, same_handles_new_image. Qed.

Lemma cast_only_load_model mc w key : steps (cast_only mc) (load_model w key).
Proof. apply cast_only_same, same_handles_load_model. Qed.

#[export] Hint Resolve cast_only_half cast_only_emit cast_only_set_images_open
  cast_only_new_image cast_only_load_model : frame.

Lemma cast_only_molmo w images query :
  steps (cast_only "molmo") (molmo w images query).
Proof. unfold molmo, molmo_try. frame. Qed.


Lemma cast_only_generate_response w images query sid rh rw mc :
  steps (cast_only mc) (generate_response w images query sid rh rw mc).
Proof.
  unfold generate_response.
  apply steps_try_except; [tc_solve | | intros e; frame].
  apply steps_bind; [tc_solve | frame | intros _].
  destruct (String.eqb mc "qwen");
    [apply cast_only_same, same_handles_qwen |].
  destruct (String.eqb mc "gemini");
    [apply cast_only_same, same_handles_gemini |].
  destruct (String.eqb mc "gpt4");
    [apply cast_only_same, same_handles_gpt4 |].
  destruct (String.eqb mc "llama-vision");
    [apply cast_only_same, same_handles_llama_vision |].
  destruct (String.eqb mc "pixtral");
    [apply cast_only_same, same_handles_pixtral |].
  destruct (String.eqb mc "molmo") eqn:E; [| frame].
  apply String.eqb_eq in E. subst mc. apply cast_only_molmo.
Qed.

(** The outer handler turns every raise into a returned value. *)
Lemma generate_response_never_raises w images query sid rh rw mc s :
  exists v, (generate_response w images query sid rh rw mc s).1 = Ok v.
Proof.
  unfold generate_response, try_except.
  match goal with |- context [match ?b s with _ => _ end] =>
    destruct (b s) as [[v | e] s'] end.
  - by exists v.
  - eexists. reflexivity.
Qed.

(** ** The dispatcher *)

(** C3. For every model_choice outside the closed backend set
    {qwen, gemini, gpt4, llama-vision, pixtral, molmo}, generate_response
    returns the fixed text "Invalid model selected." without raising and
    without invoking the Model Provider lookup: the call leaves exactly its
    two log entries, none of them a load_model event, and the cache is
    untouched. *)
Theorem invalid_model_choice w cache images query sid rh rw mc :
  mc ∉ backends ->
  let r := run cache (generate_response w images query sid rh rw mc) in
  r.1 = Ok (PyStr "Invalid model selected.") /\
  Forall (fun e => is_load_model e = false) (trace r.2) /\
  trace r.2 =
    [Log INFO ("Generating response using model '" +:+ mc +:+ "'.");
     Log ERROR ("Invalid model choice: " +:+ mc)] /\
  handles r.2 = cache.
Proof.
  intros Hn r. subst r. unfold backends in Hn.
  rewrite !not_elem_of_cons in Hn.
  destruct Hn as (H1 & H2 & H3 & H4 & H5 & H6 & _).
  apply String.eqb_neq in H1, H2, H3, H4, H5, H6.
  unfold run, generate_response, try_except, bind, logger, emit.
  rewrite H1, H2, H3, H4, H5, H6. simpl.
  repeat split; try reflexivity.
  repeat constructor.
Qed.

Lemma invalid_model_choice_witness :
  ("llava" ∉ backends) /\
  (run demo_cache
     (generate_response (demo_world PyNone PyNone) ["a.png"] "what is this?"
        "s1" 280 280 "llava")).1
  = Ok (PyStr "Invalid model selected.").
Proof.
  assert (Hn : "llava" ∉ backends).
  { unfold backends. rewrite !not_elem_of_cons.
    repeat split; try discriminate. apply not_elem_of_nil. }
  split; [exact Hn |].
  exact (proj1 (invalid_model_choice (demo_world PyNone PyNone) demo_cache
                  ["a.png"] "what is this?" "s1" 280 280 "llava" Hn)).
Defined.

(** C9. Calling generate_response with model_choice 'llama-vision' and an
    empty image list returns the generic outer-boundary failure string
    "An error occurred while generating the response.", not the
    "No images could be loaded for analysis." sentinel: when the Model
    Provider serves the key, the indexing of the empty path list raises
    and the outer handler logs it; when it does not, the raise of
    load_model ends in the same handler. *)
Theorem llama_vision_empty_images w cache query sid rh rw :
  let r := run cache (generate_response w [] query sid rh rw "llama-vision") in
  r.1 = Ok (PyStr GENERIC_FAILURE) /\
  r.1 <> Ok (PyStr NO_IMAGES) /\
  Forall quiet (trace r.2) /\
  (cache !! "llama-vision" = None \/
   trace r.2 =
     [Log INFO "Generating response using model 'llama-vision'.";
      LoadModel "llama-vision";
      Log ERROR "Error generating response: list index out of range"]).
Proof.
  intros r. subst r. run_py.
  destruct (cache !! "llama-vision") as [h |] eqn:E; run_py.
  - repeat split; [discriminate | repeat constructor | by right].
  - repeat split; [discriminate | repeat constructor | by left].
Qed.

(** ** The cache of the Model Provider *)

(** C4, as the code has it.  generate_response leaves the cache of the
    Model Provider as it found it on every branch but molmo; on molmo the
    one change it can make is the in-place cast of the cached model to half
    precision.  On every branch the preprocessor, the device and the
    sampling configuration of every cached handle, and the weights of its
    model, are what they were. *)
Theorem handles_after_call w cache images query sid rh rw mc :
  let r := run cache (generate_response w images query sid rh rw mc) in
  (handles r.2 = cache \/
   (mc = "molmo" /\ handles r.2 = alter handle_half "molmo" cache)) /\
  forall key,
    (processor <$> handles r.2 !! key) = (processor <$> cache !! key) /\
    (device <$> handles r.2 !! key) = (device <$> cache !! key) /\
    (sampling_params <$> handles r.2 !! key)
      = (sampling_params <$> cache !! key) /\
    (weights ∘ model <$> handles r.2 !! key)
      = (weights ∘ model <$> cache !! key).
Proof.
  intros r.
  pose proof (cast_only_generate_response w images query sid rh rw mc
                (initial cache)) as H.
  fold (run cache (generate_response w images query sid rh rw mc)) in H.
  fold r in H. unfold cast_only in H. simpl in H.
  split; [exact H |].
  intros key. destruct H as [-> | [_ ->]]; [done |].
  destruct (decide ("molmo" = key)) as [<- | Hne].
  - rewrite lookup_alter_eq. by destruct (cache !! "molmo").
  - by rewrite lookup_alter_ne.
Qed.

(** C4, refuted as stated: a call on the molmo branch leaves the cached
    model in half precision where it was in single precision before. *)
Lemma molmo_mutates_cached_model :
  let r := run demo_cache
             (generate_response (demo_world PyNone PyNone) ["a.png"]
                "describe this" "s1" 280 280 "molmo") in
  (dtype ∘ model <$> demo_cache !! "molmo") = Some float32 /\
  (dtype ∘ model <$> handles r.2 !! "molmo") = Some float16 /\
  handles r.2 <> demo_cache.
Proof.
  assert (Hb : (dtype ∘ model <$> demo_cache !! "molmo") = Some float32)
    by (vm_compute; reflexivity).
  assert (Ha : (dtype ∘ model <$>
                  handles (run demo_cache
                    (generate_response (demo_world PyNone PyNone) ["a.png"]
                       "describe this" "s1" 280 280 "molmo")).2 !! "molmo")
               = Some float16)
    by (vm_compute; reflexivity).
  cbv zeta. split; [exact Hb |]. split; [exact Ha |].
  intros Heq. rewrite Heq in Ha. rewrite Hb in Ha. discriminate.
Qed.

(** ** The text field of a remote response *)

(** C1, at its failing input: the remote call of the gpt4 branch succeeds
    and the message of the first choice carries no content; the branch
    hands that content back, and generate_response returns None. *)
Lemma gpt4_returns_none :
  (run demo_cache
     (generate_response (demo_world PyNone PyNone) ["a.png"] "describe this"
        "s1" 280 280 "gpt4")).1
  = Ok PyNone.
Proof. vm_compute. reflexivity. Qed.

(** C5, at its failing input: the remote call of the gpt4 branch succeeds
    with an empty content; the branch returns the empty string, where the
    gemini branch, given an empty or absent text, returns its sentinel. *)
Lemma gpt4_returns_empty_string :
  let gpt4_run :=
    run demo_cache
      (generate_response (demo_world PyNone (PyStr EmptyString)) ["a.png"]
         "describe this" "s1" 280 280 "gpt4") in
  let gemini_run text :=
    run demo_cache
      (generate_response (demo_world text PyNone) ["a.png"]
         "describe this" "s1" 280 280 "gemini") in
  gpt4_run.1 = Ok (PyStr EmptyString) /\
  existsb is_inference (trace gpt4_run.2) = true /\
  (gemini_run (PyStr EmptyString)).1
    = Ok (PyStr "The Gemini model did not generate any text response.") /\
  (gemini_run PyNone).1
    = Ok (PyStr "The Gemini model did not generate any text response.").
Proof. vm_compute. repeat split. Qed.

(** ** The qwen branch *)




(** C10. Calling generate_response with model_choice 'qwen' and an empty
    image list does not return any sentinel: it invokes the backend with a
    text-only prompt (an empty image-content list followed by the text
    part) and, the collaborators answering, returns the first decoded
    output of the model. *)
Theorem qwen_empty_images_text_only w cache query sid rh rw
    h prompt vision inputs moved ids answer rest :
  let messages := [ {| role := "user"; content := [PText query] |} ] in
  cache !! "qwen" = Some h ->
  apply_chat_template w (processor h) messages = Ok prompt ->
  process_vision_info w messages = Ok vision ->
  processor_call w (processor h) [prompt] vision = Ok inputs ->
  batch_to w inputs (device h) = Ok moved ->
  generate w (model h) moved 128 = Ok ids ->
  batch_decode w (processor h)
    (map (fun io : Tokens * Tokens => drop (length io.1) io.2)
         (zip (input_ids moved) ids)) = Ok (answer :: rest) ->
  let r := run cache (generate_response w [] query sid rh rw "qwen") in
  r.1 = Ok (PyStr answer) /\
  trace r.2 =
    [Log INFO "Generating response using model 'qwen'.";
     LoadModel "qwen";
     ApplyChatTemplate messages;
     ProcessVisionInfo messages;
     Generate (model h) moved 128;
     Log INFO "Response generated using Qwen model."].
Proof.
  intros messages Hc Ht Hv Hp Hm Hg Hd r. subst r messages.
  run_py. rewrite Hc. run_py. rewrite Ht. run_py. rewrite Hv. run_py.
  rewrite Hp. run_py. rewrite Hm. run_py. rewrite Hg. run_py.
  rewrite Hd. run_py. done.
Qed.

Lemma qwen_empty_images_text_only_witness :
  demo_cache !! "qwen" = Some demo_handle /\
  (run demo_cache
     (generate_response (demo_world PyNone PyNone) [] "describe this" "s1"
        280 280 "qwen")).1
  = Ok (PyStr "a description").
Proof.
  assert (Hc : demo_cache !! "qwen" = Some demo_handle)
    by (vm_compute; reflexivity).
  split; [exact Hc |].
  refine (proj1 (qwen_empty_images_text_only (demo_world PyNone PyNone)
                   demo_cache "describe this" "s1" 280 280 demo_handle
                   "prompt" ("images", "videos")
                   {| input_ids := [[1; 2; 3]%Z]; pixel_values := "pixels" |}
                   {| input_ids := [[1; 2; 3]%Z]; pixel_values := "pixels" |}
                   [[1; 2; 3; 4; 5]%Z] "a description" []
                   Hc _ _ _ _ _ _));
    reflexivity.
Defined.

(** ** The llama-vision branch *)


(** ** The molmo branch *)


(** For contrast: the llama-vision branch returns with its image still
    held. *)
Example llama_vision_leaves_image_open :
  images_open
    (run demo_cache
       (generate_response (demo_world PyNone PyNone) ["a.png"]
          "describe this" "s1" 280 280 "llama-vision")).2
  = [0%nat].
Proof. vm_compute. reflexivity. Qed.

(** ** Calls without a usable image *)


Lemma quiet_snoc tr e : Forall quiet tr -> quiet e -> Forall quiet (tr ++ [e]).
Proof. intros Ht He. apply Forall_app. split; [exact Ht | by constructor]. Qed.

Create HintDb quiet discriminated.
#[local] Hint Resolve quiet_snoc : quiet.
#[local] Hint Extern 1 (quiet _) => reflexivity : quiet.
#[local] Hint Extern 1 (Forall quiet []) => constructor : quiet.




(** The scenarios of the specification on the two remote branches. *)
Example gpt4_empty_list_no_network_call :
  let r := run demo_cache
             (generate_response (demo_world PyNone PyNone) [] "describe this"
                "s1" 280 280 "gpt4") in
  r.1 = Ok (PyStr NO_IMAGES) /\
  trace r.2 = [Log INFO "Generating response using model 'gpt4'."].
Proof. vm_compute. split; reflexivity. Qed.

Example gemini_missing_image_warns :
  let r := run demo_cache
             (generate_response (demo_world PyNone PyNone) ["missing.png"]
                "what is this?" "s1" 280 280 "gemini") in
  r.1 = Ok (PyStr NO_IMAGES) /\
  trace r.2 =
    [Log INFO "Generating response using model 'gemini'.";
     LoadModel "gemini";
     PathExists "static/missing.png";
     Log WARNING "Image file not found: static/missing.png"].
Proof. vm_compute. split; reflexivity. Qed.

(** ** What the branches return *)

Lemma returns_ret {A} (P : A -> Prop) a : P a -> returns P (ret a).
Proof. intros Ha s a' s' E. unfold ret in E. by simplify_eq. Qed.

Lemma returns_raise {A} (P : A -> Prop) e : returns P (raise e).
Proof. intros s a s' E. discriminate E. Qed.

Lemma returns_bind {A B} (P : B -> Prop) (m : M A) (k : A -> M B) :
  (forall a, returns P (k a)) -> returns P (bind m k).
Proof.
  intros Hk s b s' E. unfold bind in E.
  destruct (m s) as [[a | e] s1]; [| discriminate E].
  eapply Hk, E.
Qed.

Lemma returns_bind_lift {A B} (P : B -> Prop) (r : Result A) (k : A -> M B) :
  (forall a, r = Ok a -> returns P (k a)) -> returns P (bind (lift r) k).
Proof.
  intros Hk s b s' E. unfold bind, lift in E.
  destruct r as [a | e]; [| discriminate E].
  eapply Hk; [reflexivity | exact E].
Qed.

Lemma returns_try_except {A} (P : A -> Prop) (body : M A) handler :
  returns P body -> (forall e, returns P (handler e)) ->
  returns P (try_except body handler).
Proof.
  intros Hb Hh s a s' E. unfold try_except in E.
  destruct (body s) as [[a1 | e] s1] eqn:Eb.
  - simplify_eq. eapply Hb, Eb.
  - eapply Hh, E.
Qed.

Lemma returns_try_finally {A} (P : A -> Prop) (body : M A) cleanup :
  returns P body -> returns P (try_finally body cleanup).
Proof.
  intros Hb s a s' E. unfold try_finally in E.
  destruct (body s) as [r s1] eqn:Eb.
  destruct (cleanup s1) as [[u | e] s2]; [| discriminate E].
  simplify_eq. eapply Hb, Eb.
Qed.

Lemma truthy_is_str v : truthy v = true -> is_str v.
Proof. destruct v as [s |]; [by exists s | discriminate]. Qed.

Ltac returns_str :=
  repeat first
    [ apply returns_ret; eexists; reflexivity
    | apply returns_raise
    | apply returns_bind_lift; intros ? ?
    | apply returns_bind; intros ?
    | apply returns_try_except; [| intros ?]
    | apply returns_try_finally
    | match goal with
      | |- returns _ (if ?b then _ else _) => destruct b eqn:?
      | |- returns _ (match ?x with _ => _ end) => destruct x eqn:?
      end
    | progress cbv zeta ].

Lemma qwen_returns_str w images query rh rw :
  returns is_str (qwen w images query rh rw).
Proof. unfold qwen. returns_str. Qed.

Lemma gemini_returns_str w images query :
  returns is_str (gemini w images query).
Proof.
  unfold gemini. returns_str.
  apply returns_ret, truthy_is_str. congruence.
Qed.

Lemma llama_vision_returns_str w images query :
  returns is_str (llama_vision w images query).
Proof. unfold llama_vision. returns_str. Qed.

Lemma pixtral_returns_str w images query :
  returns is_str (pixtral w images query).
Proof. unfold pixtral. returns_str. Qed.

Lemma molmo_returns_str w images query :
  returns is_str (molmo w images query).
Proof. unfold molmo, molmo_try. returns_str. Qed.

(** Away from the gpt4 branch, what generate_response returns is a
    string. *)
Lemma generate_response_returns_str w images query sid rh rw mc :
  mc <> "gpt4" ->
  returns is_str (generate_response w images query sid rh rw mc).
Proof.
  intros Hne. apply String.eqb_neq in Hne.
  unfold generate_response. rewrite Hne.
  apply returns_try_except; [| intros e; returns_str].
  apply returns_bind; intros _.
  repeat match goal with
         | |- returns _ (if ?b then _ else _) => destruct b
         end;
    auto using qwen_returns_str, gemini_returns_str,
      llama_vision_returns_str, pixtral_returns_str, molmo_returns_str.
  returns_str.
Qed.

(** X17. Every call returns, and away from the gpt4 branch it returns a
    string: whatever the collaborators answer or raise, the value handed
    back is text, never None and never an exception. *)
Lemma generate_response_str_unless_gpt4 w cache images query sid rh rw mc :
  mc <> "gpt4" ->
  exists text,
    (run cache (generate_response w images query sid rh rw mc)).1
    = Ok (PyStr text).
Proof.
  intros Hne. unfold run.
  destruct (generate_response_never_raises w images query sid rh rw mc
              (initial cache)) as [v Hv].
  destruct (generate_response w images query sid rh rw mc (initial cache))
    as [res s'] eqn:E.
  simpl in Hv. subst res.
  destruct (generate_response_returns_str w images query sid rh rw mc Hne
              _ _ _ E) as [text ->].
  by exists text.
Qed.

(** ** Lookups at the Model Provider *)

#[export] Instance unchanged_preorder f : PreOrder (unchanged f).
Proof.
  split; [intros s; reflexivity |].
  intros s1 s2 s3 H12 H23. unfold unchanged in *. congruence.
Qed.

Lemma unchanged_emit f e : f e = false -> steps (unchanged f) (emit e).
Proof.
  intros He s. unfold unchanged. simpl.
  rewrite List.filter_app. simpl. rewrite He. apply app_nil_r.
Qed.

Lemma unchanged_set_images_open f g bump :
  steps (unchanged f) (set_images_open g bump).
Proof. intros s. reflexivity. Qed.

Lemma unchanged_new_image f path mode : steps (unchanged f) (new_image path mode).
Proof. intros s. reflexivity. Qed.

Lemma unchanged_load_model f w key :
  f (LoadModel key) = false -> steps (unchanged f) (load_model w key).
Proof.
  intros Hf s. unfold load_model, bind, emit. simpl.
  destruct (handles s !! key); unfold unchanged; simpl;
    rewrite List.filter_app; simpl; rewrite Hf; apply app_nil_r.
Qed.

Lemma unchanged_half f w key m :
  f (Half key) = false -> steps (unchanged f) (half w key m).
Proof.
  intros Hf s. unfold half, call, bind, emit, lift. simpl.
  destruct (module_half w m); unfold unchanged; simpl;
    rewrite List.filter_app; simpl; rewrite Hf; apply app_nil_r.
Qed.

#[export] Hint Resolve unchanged_set_images_open unchanged_new_image : frame.
#[export] Hint Extern 1 (steps (unchanged _) (emit _)) =>
  (apply unchanged_emit; reflexivity) : frame.
#[export] Hint Extern 1 (steps (unchanged _) (load_model _ _)) =>
  (apply unchanged_load_model; reflexivity) : frame.
#[export] Hint Extern 1 (steps (unchanged _) (half _ _ _)) =>
  (apply unchanged_half; reflexivity) : frame.














(** ** Images left open *)

#[export] Instance holds_on_preorder : PreOrder holds_on.
Proof.
  split.
  - intros s. split; [| split]; [lia | | reflexivity].
    rewrite Nat.sub_diag. simpl. by rewrite app_nil_r.
  - intros s1 s2 s3 (Hle1 & Ho1 & Hc1) (Hle2 & Ho2 & Hc2).
    split; [| split]; [lia | | by etransitivity].
    rewrite Ho2, Ho1, <- app_assoc. f_equal.
    replace (next_image s3 - next_image s1)%nat
      with ((next_image s2 - next_image s1)
            + (next_image s3 - next_image s2))%nat by lia.
    rewrite seq_app. do 2 f_equal. lia.
Qed.

Lemma holds_on_emit e : is_close e = false -> steps holds_on (emit e).
Proof.
  intros He s. split; [| split]; simpl; [lia | |].
  - rewrite Nat.sub_diag. simpl. by rewrite app_nil_r.
  - by apply unchanged_emit.
Qed.

Lemma holds_on_new_image path mode : steps holds_on (new_image path mode).
Proof.
  intros s. split; [| split]; simpl; [lia | | reflexivity].
  replace (next_image s + 1 - next_image s)%nat with 1%nat by lia.
  reflexivity.
Qed.

Lemma holds_on_load_model w key : steps holds_on (load_model w key).
Proof.
  intros s. unfold load_model, bind, emit. simpl.
  split; [| split]; [| | by apply unchanged_load_model];
    unfold load_model, bind, emit; simpl;
    destruct (handles s !! key); simpl; [lia | lia | |];
    rewrite Nat.sub_diag; simpl; by rewrite app_nil_r.
Qed.

#[export] Hint Resolve holds_on_new_image holds_on_load_model : frame.
#[export] Hint Extern 1 (steps holds_on (emit _)) =>
  (apply holds_on_emit; reflexivity) : frame.

Lemma filter_nil_Forall {A} (f : A -> bool) l :
  List.filter f l = [] -> Forall (fun x => f x = false) l.
Proof.
  induction l as [| x l IH]; simpl; [constructor |].
  destruct (f x) eqn:E; [discriminate |]. intros H.
  constructor; [exact E | exact (IH H)].
Qed.

(** X2. Away from the molmo branch, generate_response closes no image:
    every image it has obtained from PIL is still held when the call
    returns, and the trace has no close event. *)
Theorem images_never_closed w cache images query sid rh rw mc :
  mc <> "molmo" ->
  let r := run cache (generate_response w images query sid rh rw mc) in
  images_open r.2 = seq 0 (next_image r.2) /\
  Forall (fun e => is_close e = false) (trace r.2).
Proof.
  intros Hne r. apply String.eqb_neq in Hne.
  assert (H : steps holds_on (generate_response w images query sid rh rw mc)).
  { unfold generate_response, qwen, gemini, gpt4, llama_vision, pixtral.
    rewrite Hne. frame. }
  destruct (H (initial cache)) as (_ & Ho & Hc).
  fold (run cache (generate_response w images query sid rh rw mc)) in Ho, Hc.
  fold r in Ho, Hc. simpl in Ho, Hc. rewrite Nat.sub_0_r in Ho.
  split; [exact Ho | by apply filter_nil_Forall].
Qed.

Lemma images_never_closed_witness :
  "gemini" <> "molmo" /\
  images_open
    (run demo_cache
       (generate_response (demo_world PyNone PyNone) ["a.png"; "a.png"]
          "describe this" "s1" 280 280 "gemini")).2
  = [0; 1]%nat.
Proof.
  assert (Hne : "gemini" <> "molmo") by discriminate.
  split; [exact Hne |].
  exact (proj1 (images_never_closed (demo_world PyNone PyNone) demo_cache
                  ["a.png"; "a.png"] "describe this" "s1" 280 280 "gemini"
                  Hne)).
Defined.

(** ** The gemini branch *)

Lemma opened_images_paths w n images :
  map im_path (opened_images w n images)
  = List.filter (fun p => os_path_exists w p && is_ok (PIL_open w p))
      (map (os_path_join w "static") images).
Proof.
  revert n. induction images as [| x images IH]; intros n; simpl; [done |].
  destruct (os_path_exists w _); simpl; [| apply IH].
  destruct (PIL_open w _); simpl; [f_equal |]; apply IH.
Qed.

Lemma filter_inference_snoc tr e :
  is_inference e = false ->
  List.filter is_inference (tr ++ [e]) = List.filter is_inference tr.
Proof. intros He. rewrite List.filter_app. simpl. rewrite He. apply app_nil_r. Qed.

Lemma opened_images_cons w n x images :
  opened_images w n (x :: images)
  = opened_images w n [x]
    ++ opened_images w (n + length (opened_images w n [x])) images.
Proof.
  simpl. destruct (os_path_exists w _); simpl; [| by rewrite Nat.add_0_r].
  destruct (PIL_open w _); simpl; [by rewrite Nat.add_1_r |].
  by rewrite Nat.add_0_r.
Qed.

(** A loop whose body, at each identifier, extends the content by the
    image that identifier gives (if any) without an inference call, ends
    with the content extended by the images of the whole list. *)
Lemma for_each_opened w (body : list GeminiItem -> string -> M (list GeminiItem)) :
  (forall acc x s, exists s',
      body acc x s
      = (Ok (acc ++ map GImage (opened_images w (next_image s) [x])), s') /\
      next_image s'
      = (next_image s + length (opened_images w (next_image s) [x]))%nat /\
      List.filter is_inference (trace s') = List.filter is_inference (trace s)) ->
  forall images acc s, exists s',
    for_each images body acc s
    = (Ok (acc ++ map GImage (opened_images w (next_image s) images)), s') /\
    List.filter is_inference (trace s') = List.filter is_inference (trace s).
Proof.
  intros Hbody. induction images as [| x images IH]; intros acc s.
  - exists s. simpl. by rewrite app_nil_r.
  - destruct (Hbody acc x s) as (s1 & E1 & N1 & F1).
    destruct (IH (acc ++ map GImage (opened_images w (next_image s) [x])) s1)
      as (s2 & E2 & F2).
    exists s2. split; [| congruence].
    cbn [for_each]. unfold bind. rewrite E1, E2, N1.
    rewrite (opened_images_cons w (next_image s) x images), map_app, app_assoc.
    reflexivity.
Qed.

(** Runs the image loop of the gemini branch in the goal. *)
Ltac gemini_loop w Hloop :=
  match goal with
  | |- context [for_each _ ?body [GText _] _] =>
      assert (Hloop := for_each_opened w body);
      lapply Hloop;
      [ clear Hloop; intros Hloop
      | clear Hloop; intros ? ? ?; simpl;
        match goal with
        | |- context [os_path_exists w ?p] =>
            destruct (os_path_exists w p); [destruct (PIL_open w p) |]
        end;
        simpl; rewrite ?app_nil_r; eexists; (split; [reflexivity |]); simpl;
        (split; [lia |]);
        rewrite ?filter_inference_snoc by reflexivity; reflexivity ]
  end.

(** Runs a gemini call up to the end of its image loop, for a list that
    gives at least one image. *)
Ltac gemini_start w cache images Hc Hne :=
  let Hloop := fresh "Hloop" in
  let s1 := fresh "s1" in
  let HF := fresh "HF" in
  let E := fresh "E" in
  run_py; rewrite Hc; run_py;
  gemini_loop w Hloop;
  match goal with
  | |- context [for_each images ?body ?a ?s] =>
      destruct (Hloop images a s) as (s1 & -> & HF)
  end;
  clear Hloop; simpl in HF; run_py;
  destruct (opened_images w 0 images) as [| ? ?] eqn:E; [done |];
  run_py.

(** X3. On the gemini branch an identifier whose file is missing or does
    not open in PIL is skipped and the rest of the list is still used:
    when the Model Provider serves the key and at least one identifier
    gives an image, the call makes exactly one inference call, and its
    content is the query followed by the images of exactly the
    identifiers that exist and open, in the order of the list. *)
Theorem gemini_sends_opened_images w cache images query sid rh rw h :
  cache !! "gemini" = Some h ->
  opened_images w 0 images <> [] ->
  let r := run cache (generate_response w images query sid rh rw "gemini") in
  let sent := opened_images w 0 images in
  List.filter is_inference (trace r.2)
    = [GenerateContent (model h) (GText query :: map GImage sent)] /\
  map im_path sent
    = List.filter (fun p => os_path_exists w p && is_ok (PIL_open w p))
        (map (os_path_join w "static") images).
Proof.
  intros Hc Hne r sent. subst r sent.
  split; [| apply opened_images_paths].
  gemini_start w cache images Hc Hne.
  repeat (case_py; run_py);
    rewrite ?List.filter_app, HF; reflexivity.
Qed.

Lemma gemini_sends_opened_images_witness :
  demo_cache !! "gemini" = Some demo_handle /\
  List.filter is_inference
    (trace (run demo_cache
              (generate_response (demo_world (PyStr "a cat") PyNone)
                 ["missing.png"; "a.png"] "what is this?" "s1" 280 280
                 "gemini")).2)
  = [GenerateContent (model demo_handle)
       [GText "what is this?";
        GImage {| im_id := 0; im_path := "static/a.png"; im_mode := "RGBA" |}]].
Proof.
  assert (Hc : demo_cache !! "gemini" = Some demo_handle)
    by (vm_compute; reflexivity).
  split; [exact Hc |].
  refine (proj1 (gemini_sends_opened_images (demo_world (PyStr "a cat") PyNone)
                   demo_cache ["missing.png"; "a.png"] "what is this?" "s1"
                   280 280 demo_handle Hc _)).
  discriminate.
Defined.

(** X4. On the gemini branch, when the Model Provider serves the key, at
    least one identifier gives an image and the remote call answers with
    a readable text field, the call returns that text when it is not
    empty, and the fixed "did not generate any text response" sentinel
    when it is empty or absent. *)
Theorem gemini_text_or_sentinel w cache images query sid rh rw h response t :
  cache !! "gemini" = Some h ->
  opened_images w 0 images <> [] ->
  generate_content w (model h)
    (GText query :: map GImage (opened_images w 0 images)) = Ok response ->
  response_text response = Ok t ->
  (run cache (generate_response w images query sid rh rw "gemini")).1
  = Ok (if truthy t then t else PyStr GEMINI_NO_TEXT).
Proof.
  intros Hc Hne Hg Ht. revert Hg.
  gemini_start w cache images Hc Hne.
  intros Hg. rewrite Hg. run_py. rewrite Ht. run_py.
  destruct (truthy t); run_py; reflexivity.
Qed.

Lemma gemini_text_or_sentinel_witness :
  demo_cache !! "gemini" = Some demo_handle /\
  (run demo_cache
     (generate_response (demo_world (PyStr "a cat") PyNone) ["a.png"]
        "what is this?" "s1" 280 280 "gemini")).1
  = Ok (PyStr "a cat").
Proof.
  assert (Hc : demo_cache !! "gemini" = Some demo_handle)
    by (vm_compute; reflexivity).
  split; [exact Hc |].
  refine (gemini_text_or_sentinel (demo_world (PyStr "a cat") PyNone)
            demo_cache ["a.png"] "what is this?" "s1" 280 280 demo_handle
            {| response_text := Ok (PyStr "a cat") |} (PyStr "a cat")
            Hc _ _ _); [discriminate | reflexivity | reflexivity].
Defined.

(** X5. On the gemini branch a failure of the remote call, or of the read
    of the text field of its response, is caught by the branch: the call
    returns "An error occurred while processing the images: " followed by
    the text of the exception, not the generic failure string of the
    outer handler. *)
Theorem gemini_remote_failure_text w cache images query sid rh rw h e :
  cache !! "gemini" = Some h ->
  opened_images w 0 images <> [] ->
  generate_content w (model h)
    (GText query :: map GImage (opened_images w 0 images)) = Raise e \/
  (exists response,
     generate_content w (model h)
       (GText query :: map GImage (opened_images w 0 images)) = Ok response /\
     response_text response = Raise e) ->
  let r := run cache (generate_response w images query sid rh rw "gemini") in
  r.1 = Ok (PyStr (ADAPTER_FAILURE e)) /\
  last (trace r.2) = Some (Log ERROR ("Error in Gemini processing: " +:+ str e)).
Proof.
  intros Hc Hne Hg r. subst r. revert Hg.
  gemini_start w cache images Hc Hne.
  intros [Hg | (response & Hg & Ht)]; rewrite Hg; run_py;
    rewrite ?Ht; run_py; (split; [reflexivity | apply last_snoc]).
Qed.

Lemma gemini_remote_failure_text_witness :
  demo_cache !! "gemini" = Some demo_handle /\
  (run demo_cache
     (generate_response (faulty_world (Exception "quota exceeded")) ["a.png"]
        "what is this?" "s1" 280 280 "gemini")).1
  = Ok (PyStr "An error occurred while processing the images: quota exceeded").
Proof.
  assert (Hc : demo_cache !! "gemini" = Some demo_handle)
    by (vm_compute; reflexivity).
  split; [exact Hc |].
  refine (proj1 (gemini_remote_failure_text
                   (faulty_world (Exception "quota exceeded")) demo_cache
                   ["a.png"] "what is this?" "s1" 280 280 demo_handle
                   (Exception "quota exceeded") Hc _ _));
    [discriminate | left; reflexivity].
Defined.

(** ** The gpt4 branch *)

Lemma for_each_app {A S} (xs ys : list A) (body : S -> A -> M S) acc s :
  for_each (xs ++ ys) body acc s
  = bind (for_each xs body acc) (fun acc' => for_each ys body acc') s.
Proof.
  revert acc s. induction xs as [| x xs IH]; intros acc s; simpl.
  - reflexivity.
  - unfold bind. destruct (body acc x s) as [[acc1 | e] s1]; [| reflexivity].
    rewrite IH. reflexivity.
Qed.

(** A loop whose body adds to the accumulator, at each element satisfying
    [Q], the parts [f] gives for it, keeping [I], ends with the parts of
    the whole list added. *)
Lemma for_each_concat {A B} (I : State -> Prop) (Q : A -> Prop)
    (f : A -> list B) (body : list B -> A -> M (list B)) :
  (forall acc x s, Q x -> I s ->
     exists s', body acc x s = (Ok (acc ++ f x), s') /\ I s') ->
  forall xs, Forall Q xs -> forall acc s, I s ->
    exists s', for_each xs body acc s = (Ok (acc ++ concat (map f xs)), s')
               /\ I s'.
Proof.
  intros Hbody xs HQ. induction HQ as [| x xs Hx _ IH]; intros acc s HI.
  - exists s. simpl. by rewrite app_nil_r.
  - destruct (Hbody acc x s Hx HI) as (s1 & E1 & HI1).
    destruct (IH (acc ++ f x) s1 HI1) as (s2 & E2 & HI2).
    exists s2. split; [| exact HI2].
    cbn [for_each]. unfold bind. rewrite E1, E2. simpl.
    by rewrite app_assoc.
Qed.

(** Runs the image loop of the gpt4 branch in the goal over identifiers
    that are all passable. *)
Ltac gpt4_loop w Hloop :=
  match goal with
  | |- context [for_each _ ?body [PText _] _] =>
      assert (Hloop := for_each_concat
                         (fun s => List.filter is_inference (trace s) = [])
                         (passable w)
                         (fun image => gpt4_image_parts w [image]) body);
      lapply Hloop;
      [ clear Hloop; intros Hloop
      | clear Hloop;
        let HQ := fresh "HQ" in let HI := fresh "HI" in
        intros ? ? ? HQ HI; unfold passable in HQ; cbv zeta in HQ;
        unfold gpt4_image_parts; simpl;
        match goal with
        | |- context [os_path_exists w ?p] =>
            destruct (os_path_exists w p);
            [ destruct HQ as [HQ | HQ]; [discriminate HQ |];
              destruct (open_read w p); [| discriminate HQ] |]
        end;
        simpl; rewrite ?app_nil_r; eexists; (split; [reflexivity |]); simpl;
        rewrite ?filter_inference_snoc by reflexivity; exact HI ]
  end.

Lemma gpt4_image_parts_concat w images :
  concat (map (fun image => gpt4_image_parts w [image]) images)
  = gpt4_image_parts w images.
Proof.
  induction images as [| x images IH]; [reflexivity |].
  cbn [map concat]. rewrite IH. unfold gpt4_image_parts. simpl.
  by rewrite app_nil_r.
Qed.

(** X6. On the gpt4 branch, when the client can be built, every existing
    file can be read and at least one identifier names an existing file,
    the call makes exactly one remote call, to "gpt-4o" with a ceiling of
    1024 tokens, and its one user message holds the query followed by one
    data URL for each identifier whose file exists, in the order of the
    list; each URL is declared as image/jpeg whatever the name of the
    file, and identifiers without a file are left out. *)
Theorem gpt4_sends_data_urls w cache images query sid rh rw client :
  OpenAI w (os_getenv w "OPENAI_API_KEY") = Ok client ->
  Forall (passable w) images ->
  gpt4_image_parts w images <> [] ->
  let r := run cache (generate_response w images query sid rh rw "gpt4") in
  List.filter is_inference (trace r.2)
  = [ChatCompletionsCreate "gpt-4o"
       [ {| role := "user";
            content := PText query :: gpt4_image_parts w images |} ] 1024].
Proof.
  intros Hc Hp Hne r. subst r.
  run_py. rewrite Hc. run_py.
  gpt4_loop w Hloop.
  match goal with
  | |- context [for_each images ?body ?a ?s] =>
      destruct (Hloop images Hp a s) as (s1 & -> & HF); [reflexivity |]
  end.
  clear Hloop. rewrite gpt4_image_parts_concat. run_py.
  destruct (gpt4_image_parts w images) as [| p ps] eqn:E; [done |].
  run_py.
  repeat (case_py; run_py); rewrite ?List.filter_app, HF; reflexivity.
Qed.

Lemma gpt4_sends_data_urls_witness :
  OpenAI (demo_world PyNone PyNone)
    (os_getenv (demo_world PyNone PyNone) "OPENAI_API_KEY") = Ok "client" /\
  List.filter is_inference
    (trace (run demo_cache
              (generate_response (demo_world PyNone PyNone)
                 ["missing.png"; "a.png"] "describe this" "s1" 280 280
                 "gpt4")).2)
  = [ChatCompletionsCreate "gpt-4o"
       [ {| role := "user";
            content := [PText "describe this";
                        PImageUrl "data:image/jpeg;base64,bytes"] |} ] 1024].
Proof.
  split; [reflexivity |].
  refine (gpt4_sends_data_urls (demo_world PyNone PyNone) demo_cache
            ["missing.png"; "a.png"] "describe this" "s1" 280 280 "client"
            eq_refl _ _).
  - constructor; [left; reflexivity |].
    constructor; [right; reflexivity | constructor].
  - discriminate.
Defined.

Lemma bind_ok {A B} (m : M A) (k : A -> M B) s a s1 :
  m s = (Ok a, s1) -> bind m k s = k a s1.
Proof. intros E. unfold bind. by rewrite E. Qed.

(** X7. On the gpt4 branch an existing file that cannot be read ends the
    request: the identifiers before it having been passed, the call
    returns "An error occurred while processing the images: " followed by
    the text of the exception and makes no remote call, whatever comes
    after in the list. *)
Theorem gpt4_unreadable_file_aborts w cache before bad after query sid rh rw
    client e :
  OpenAI w (os_getenv w "OPENAI_API_KEY") = Ok client ->
  Forall (passable w) before ->
  os_path_exists w (os_path_join w "static" bad) = true ->
  open_read w (os_path_join w "static" bad) = Raise e ->
  let r := run cache
             (generate_response w (before ++ bad :: after) query sid rh rw
                "gpt4") in
  r.1 = Ok (PyStr (ADAPTER_FAILURE e)) /\
  List.filter is_inference (trace r.2) = [].
Proof.
  intros Hc Hp Hex Hrd r. subst r.
  run_py. rewrite Hc. run_py.
  gpt4_loop w Hloop.
  match goal with
  | |- context [for_each (before ++ bad :: after) ?body ?a ?s] =>
      rewrite (for_each_app before (bad :: after) body a s);
      destruct (Hloop before Hp a s) as (s1 & Heq & HF); [reflexivity |];
      rewrite (bind_ok _ _ _ _ _ Heq)
  end.
  clear Hloop Heq. run_py. rewrite Hex. run_py. rewrite Hrd. run_py.
  split; [reflexivity |].
  rewrite !List.filter_app, HF. reflexivity.
Qed.

Lemma gpt4_unreadable_file_aborts_witness :
  let w := faulty_world (Exception "permission denied") in
  OpenAI w (os_getenv w "OPENAI_API_KEY") = Ok "client" /\
  (run demo_cache
     (generate_response w (["a.png"] ++ "locked.png" :: ["a.png"])
        "describe this" "s1" 280 280 "gpt4")).1
  = Ok (PyStr
          "An error occurred while processing the images: permission denied").
Proof.
  cbv zeta. split; [reflexivity |].
  refine (proj1 (gpt4_unreadable_file_aborts
                   (faulty_world (Exception "permission denied")) demo_cache
                   ["a.png"] "locked.png" ["a.png"] "describe this" "s1"
                   280 280 "client" (Exception "permission denied")
                   eq_refl _ eq_refl eq_refl)).
  constructor; [right; reflexivity | constructor].
Defined.

(** X8. The gpt4 branch returns None only by handing back what the
    remote endpoint sent: when a call on the gpt4 branch returns None,
    the remote call was made, it succeeded, and the message of its first
    choice had no content.  Every failure on the branch returns a
    string. *)
Theorem gpt4_none_only_from_remote w cache images query sid rh rw :
  let r := run cache (generate_response w images query sid rh rw "gpt4") in
  r.1 = Ok PyNone ->
  exists client messages response choice rest,
    ChatCompletionsCreate "gpt-4o" messages 1024 ∈ trace r.2 /\
    chat_completions_create w client "gpt-4o" messages 1024 = Ok response /\
    choices response = choice :: rest /\
    message_content choice = PyNone.
Proof.
  intros r. subst r. run_py.
  destruct (OpenAI w _) as [client | e]; run_py; [| discriminate].
  match goal with
  | |- context [for_each images ?body ?a ?s] =>
      destruct (for_each images body a s) as [[parts | e] s1]
  end; run_py; [| discriminate].
  destruct (length parts =? 1)%nat; run_py; [discriminate |].
  destruct (chat_completions_create w client _ _ _) as [response | e] eqn:Hr;
    run_py; [| discriminate].
  destruct (choices response) as [| choice rest] eqn:Hch; run_py;
    [discriminate |].
  intros Hnone. exists client. eexists _, response, choice, rest.
  split; [| split; [exact Hr | split; [exact Hch | congruence]]].
  set_solver.
Qed.

Lemma gpt4_none_only_from_remote_witness :
  (run demo_cache
     (generate_response (demo_world PyNone PyNone) ["a.png"] "describe this"
        "s1" 280 280 "gpt4")).1 = Ok PyNone /\
  exists messages,
    ChatCompletionsCreate "gpt-4o" messages 1024
    ∈ trace (run demo_cache
               (generate_response (demo_world PyNone PyNone) ["a.png"]
                  "describe this" "s1" 280 280 "gpt4")).2.
Proof.
  assert (Hn : (run demo_cache
                  (generate_response (demo_world PyNone PyNone) ["a.png"]
                     "describe this" "s1" 280 280 "gpt4")).1 = Ok PyNone)
    by reflexivity.
  split; [exact Hn |].
  destruct (gpt4_none_only_from_remote (demo_world PyNone PyNone) demo_cache
              ["a.png"] "describe this" "s1" 280 280 Hn)
    as (client & messages & response & choice & rest & Hin & _).
  exists messages. exact Hin.
Defined.

(** ** The pixtral branch *)

Lemma for_each_skip {A S} (P : A -> Prop) (body : S -> A -> M S) :
  (forall acc x s, P x -> body acc x s = (Ok acc, s)) ->
  forall xs, Forall P xs -> forall acc s, for_each xs body acc s = (Ok acc, s).
Proof.
  intros Hbody xs HP. induction HP as [| x xs Hx _ IH]; intros acc s.
  - reflexivity.
  - cbn [for_each]. unfold bind. rewrite (Hbody acc x s Hx). apply IH.
Qed.

Lemma zip_seq_from_1 {A} k n (xs : list A) :
  Forall (fun ix : nat * A => (1 <= ix.1)%nat) (zip (seq (S k) n) xs).
Proof.
  revert k xs. induction n as [| n IH]; intros k xs; simpl; [constructor |].
  destruct xs as [| x xs]; simpl; constructor; [simpl; lia | apply IH].
Qed.

(** Skips, in the goal, the loop of the pixtral branch over the
    identifiers after the first. *)
Ltac pixtral_rest :=
  match goal with
  | |- context [for_each (zip (seq 1 ?n) ?xs) ?body ?a ?s] =>
      rewrite (for_each_skip (fun ix : nat * string => (1 <= ix.1)%nat) body)
        by (first [ apply zip_seq_from_1
                  | intros ? [[| ?] ?] ? ?; simpl in *; [lia | reflexivity] ])
  end.

(** X9. For a non-empty image list the pixtral branch reads only the
    first file: every file-system event of the call names the path of the
    first identifier, there is at most one such event, the read of that
    file, and the message given to model.chat holds the query and one
    data URL, built from the bytes of that file and the extension of its
    path. *)
Theorem pixtral_first_image_only w cache a rest query sid rh rw :
  let r := run cache
             (generate_response w (a :: rest) query sid rh rw "pixtral") in
  let first := os_path_join w "static" a in
  Forall (fun e =>
            match e with
            | PathExists p | ImageOpen p | FileRead p => p = first
            | Chat _ messages _ =>
                exists data,
                  open_read w first = Ok data /\
                  messages =
                    [ {| role := "user";
                         content :=
                           [PText query;
                            PImageUrl
                              ("data:image/"
                               +:+ str_tail (os_path_splitext w first).2
                               +:+ ";base64," +:+ b64encode w data)] |} ]
            | _ => True
            end) (trace r.2) /\
  (List.filter is_file_access (trace r.2) = [FileRead first] \/
   List.filter is_file_access (trace r.2) = []).
Proof.
  intros r first. subst r first. unfold enumerate. run_py.
  destruct (cache !! "pixtral") as [h |]; run_py;
    [| split; [repeat constructor | by right]].
  destruct (open_read w _) as [data | e] eqn:Hrd; run_py;
    [| split; [repeat constructor | by left]].
  pixtral_rest. run_py.
  repeat (case_py; run_py);
    (split; [repeat constructor; eauto | by left]).
Qed.

(** X10. The pixtral branch has no guard for a file it cannot read: when
    the read of the first file raises (a missing file included, as the
    branch does not test existence), the call returns the generic failure
    string of the outer handler, not the "no images" sentinel, and makes
    no inference call. *)
Theorem pixtral_unreadable_first_file w cache a rest query sid rh rw e :
  open_read w (os_path_join w "static" a) = Raise e ->
  let r := run cache
             (generate_response w (a :: rest) query sid rh rw "pixtral") in
  r.1 = Ok (PyStr GENERIC_FAILURE) /\
  List.filter is_inference (trace r.2) = [] /\
  List.filter is_file_access (trace r.2)
    = match cache !! "pixtral" with
      | Some _ => [FileRead (os_path_join w "static" a)]
      | None => []
      end.
Proof.
  intros Hrd r. subst r. unfold enumerate. run_py.
  destruct (cache !! "pixtral") as [h |]; run_py; [| done].
  rewrite Hrd. run_py. done.
Qed.

Lemma pixtral_unreadable_first_file_witness :
  let w := faulty_world (Exception "permission denied") in
  open_read w (os_path_join w "static" "locked.png")
    = Raise (Exception "permission denied") /\
  (run demo_cache
     (generate_response w ["locked.png"; "a.png"] "describe this" "s1"
        280 280 "pixtral")).1
  = Ok (PyStr GENERIC_FAILURE).
Proof.
  cbv zeta. split; [reflexivity |].
  exact (proj1 (pixtral_unreadable_first_file
                  (faulty_world (Exception "permission denied")) demo_cache
                  "locked.png" ["a.png"] "describe this" "s1" 280 280
                  (Exception "permission denied") eq_refl)).
Defined.

(** X11. With an empty image list the pixtral branch returns no sentinel:
    it calls model.chat with the query as the only content part and,
    model.chat answering, returns the text of its first output. *)
Theorem pixtral_empty_images_text_only w cache query sid rh rw
    h first others completion completions :
  let messages := [ {| role := "user"; content := [PText query] |} ] in
  cache !! "pixtral" = Some h ->
  chat w (model h) messages (sampling_params h) = Ok (first :: others) ->
  outputs first = completion :: completions ->
  let r := run cache (generate_response w [] query sid rh rw "pixtral") in
  r.1 = Ok (PyStr (text completion)) /\
  trace r.2 =
    [Log INFO "Generating response using model 'pixtral'.";
     LoadModel "pixtral";
     Chat (model h) messages (sampling_params h)].
Proof.
  intros messages Hc Hchat Hout r. subst r messages. unfold enumerate.
  run_py. rewrite Hc. run_py. rewrite Hchat. run_py. rewrite Hout. run_py.
  done.
Qed.

Lemma pixtral_empty_images_text_only_witness :
  demo_cache !! "pixtral" = Some demo_handle /\
  (run demo_cache
     (generate_response (demo_world PyNone PyNone) [] "describe this" "s1"
        280 280 "pixtral")).1
  = Ok (PyStr "a description").
Proof.
  assert (Hc : demo_cache !! "pixtral" = Some demo_handle)
    by (vm_compute; reflexivity).
  split; [exact Hc |].
  exact (proj1 (pixtral_empty_images_text_only (demo_world PyNone PyNone)
                  demo_cache "describe this" "s1" 280 280 demo_handle
                  {| outputs := [ {| text := "a description" |} ] |} []
                  {| text := "a description" |} [] Hc eq_refl eq_refl)).
Defined.

(** ** The llama-vision branch, when its image does not open *)

(** X12. The llama-vision branch has no guard for an image that does not
    open: when PIL cannot open the first file, or cannot convert it to
    RGB, the call returns the generic failure string of the outer
    handler and runs neither the preprocessor nor the model. *)
Theorem llama_vision_undecodable_first_image w cache a rest query sid rh rw :
  (exists e, PIL_open w (os_path_join w "static" a) = Raise e) \/
  (exists e, PIL_convert w (os_path_join w "static" a) "RGB" = Raise e) ->
  let r := run cache
             (generate_response w (a :: rest) query sid rh rw
                "llama-vision") in
  r.1 = Ok (PyStr GENERIC_FAILURE) /\
  Forall (fun e => match e with
                   | ApplyChatTemplate _ | ProcessorCall _ _
                   | Generate _ _ _ => False
                   | _ => True
                   end) (trace r.2) /\
  images_open r.2 = [].
Proof.
  intros Hbad r. subst r. run_py.
  destruct (cache !! "llama-vision") as [h |]; run_py;
    [| repeat split; repeat constructor].
  destruct Hbad as [[e He] | [e He]].
  - rewrite He. run_py. repeat split; repeat constructor.
  - destruct (PIL_open w _); run_py; [rewrite He; run_py |];
      repeat split; repeat constructor.
Qed.

Lemma llama_vision_undecodable_first_image_witness :
  let w := faulty_world (Exception "cannot identify image file") in
  (exists e, PIL_open w (os_path_join w "static" "broken.png") = Raise e) /\
  (run demo_cache
     (generate_response w ["broken.png"; "a.png"] "describe this" "s1"
        280 280 "llama-vision")).1
  = Ok (PyStr GENERIC_FAILURE).
Proof.
  cbv zeta.
  assert (Hb : exists e,
             PIL_open (faulty_world (Exception "cannot identify image file"))
               (os_path_join
                  (faulty_world (Exception "cannot identify image file"))
                  "static" "broken.png") = Raise e)
    by (eexists; reflexivity).
  split; [exact Hb |].
  exact (proj1 (llama_vision_undecodable_first_image
                  (faulty_world (Exception "cannot identify image file"))
                  demo_cache "broken.png" ["a.png"] "describe this" "s1"
                  280 280 (or_introl Hb))).
Defined.

(** ** The molmo branch, beyond its first identifier *)

Lemma molmo_try_no_file_access w h m pil_images query :
  steps (unchanged is_file_access) (molmo_try w h m pil_images query).
Proof. unfold molmo_try. frame. Qed.

(** X13. For a non-empty image list the molmo branch looks at the first
    identifier only: every file-system event of the call names the path
    of the first identifier, and these events are at most the existence
    test followed by the opening of that file. *)
Theorem molmo_first_image_only w cache a rest query sid rh rw :
  let r := run cache (generate_response w (a :: rest) query sid rh rw "molmo") in
  let first := os_path_join w "static" a in
  List.filter is_file_access (trace r.2) = [] \/
  List.filter is_file_access (trace r.2) = [PathExists first] \/
  List.filter is_file_access (trace r.2) = [PathExists first; ImageOpen first].
Proof.
  intros r first. subst r first.
  run_py; rewrite ?take_0; run_py.
  repeat (case_py; run_py); auto.
  all: match goal with
       | |- context [molmo_try ?w ?h ?m ?imgs ?q ?s] =>
           pose proof (molmo_try_no_file_access w h m imgs q s) as Hs;
           destruct (molmo_try w h m imgs q s) as [res s2];
           unfold unchanged in Hs; simpl in Hs
       end.
  all: run_py; destruct res; simpl;
    rewrite ?List.filter_app, Hs; simpl; auto.
Qed.

(** ** The qwen branch: what is decoded, and small hints *)

Lemma trim_prompt (prompts generated : list Tokens) :
  length prompts = length generated ->
  map (fun io : Tokens * Tokens => drop (length io.1) io.2)
      (zip prompts (zip_with app prompts generated))
  = generated.
Proof.
  revert generated.
  induction prompts as [| p prompts IH]; intros [| g generated] Hlen;
    simpl in *; try done.
  rewrite drop_app_length. f_equal. apply IH. lia.
Qed.

(** X14. The qwen branch decodes the newly generated tokens only: when
    each row model.generate returns is the prompt row of the inputs
    followed by new tokens, what the branch hands to batch_decode is the
    new tokens alone, and the call returns the first text decoded from
    them. *)
Theorem qwen_decodes_new_tokens_only w cache images query sid rh rw
    h prompt vision inputs moved generated answer rest :
  let messages := qwen_messages w images query rh rw in
  cache !! "qwen" = Some h ->
  apply_chat_template w (processor h) messages = Ok prompt ->
  process_vision_info w messages = Ok vision ->
  processor_call w (processor h) [prompt] vision = Ok inputs ->
  batch_to w inputs (device h) = Ok moved ->
  length (input_ids moved) = length generated ->
  generate w (model h) moved 128
    = Ok (zip_with app (input_ids moved) generated) ->
  batch_decode w (processor h) generated = Ok (answer :: rest) ->
  (run cache (generate_response w images query sid rh rw "qwen")).1
  = Ok (PyStr answer).
Proof.
  intros messages Hc Ht Hv Hp Hm Hlen Hg Hd. subst messages.
  unfold run, generate_response, qwen. simpl String.eqb.
  set (msgs := qwen_messages w images query rh rw) in *.
  run_py. rewrite Hc. run_py. rewrite Ht. run_py. rewrite Hv. run_py.
  rewrite Hp. run_py. rewrite Hm. run_py. rewrite Hg. run_py.
  rewrite (trim_prompt _ _ Hlen), Hd. run_py. reflexivity.
Qed.

Lemma qwen_decodes_new_tokens_only_witness :
  let w := demo_world PyNone PyNone in
  demo_cache !! "qwen" = Some demo_handle /\
  (run demo_cache
     (generate_response w ["a.png"] "describe this" "s1" 280 280 "qwen")).1
  = Ok (PyStr "a description").
Proof.
  cbv zeta.
  assert (Hc : demo_cache !! "qwen" = Some demo_handle)
    by (vm_compute; reflexivity).
  split; [exact Hc |].
  exact (qwen_decodes_new_tokens_only (demo_world PyNone PyNone) demo_cache
           ["a.png"] "describe this" "s1" 280 280 demo_handle
           "prompt" ("images", "videos")
           {| input_ids := [[1; 2; 3]%Z]; pixel_values := "pixels" |}
           {| input_ids := [[1; 2; 3]%Z]; pixel_values := "pixels" |}
           [[4; 5]%Z] "a description" []
           Hc eq_refl eq_refl eq_refl eq_refl eq_refl eq_refl eq_refl).
Defined.



(** ** The failure boundary of the guarded branches *)

Lemma gemini_returns w images query s h :
  handles s !! "gemini" = Some h ->
  exists v s', gemini w images query s = (Ok v, s').
Proof.
  intros Hc. unfold gemini. erewrite bind_ok;
    [| unfold load_model, bind, emit; cbn [handles]; rewrite Hc; reflexivity].
  unfold try_except.
  match goal with
  | |- context [match ?b ?t with _ => _ end] =>
      destruct (b t) as [[v | e] s1]
  end; eauto.
Qed.

Lemma gpt4_returns w images query s client :
  OpenAI w (os_getenv w "OPENAI_API_KEY") = Ok client ->
  exists v s', gpt4 w images query s = (Ok v, s').
Proof.
  intros Hc. unfold gpt4. cbv zeta. erewrite bind_ok;
    [| unfold lift; rewrite Hc; reflexivity].
  unfold try_except.
  match goal with
  | |- context [match ?b ?t with _ => _ end] =>
      destruct (b t) as [[v | e] s1]
  end; eauto.
Qed.

Lemma molmo_try_returns w h m pil_images query s :
  exists v s', molmo_try w h m pil_images query s = (Ok v, s').
Proof.
  unfold molmo_try, try_except.
  match goal with
  | |- context [match ?b ?t with _ => _ end] =>
      destruct (b t) as [[v | e] s1]
  end; eauto.
Qed.

Lemma molmo_returns w images query s h :
  handles s !! "molmo" = Some h ->
  module_half w (model h) = Ok tt ->
  exists v s', molmo w images query s = (Ok v, s').
Proof.
  intros Hc Hh.
  destruct images as [| a rest]; run_py; rewrite ?take_0, Hc; run_py;
    rewrite Hh; run_py; [eauto |].
  repeat (case_py; run_py); eauto.
  match goal with
  | |- context [molmo_try ?w ?h ?m ?imgs ?q ?t] =>
      destruct (molmo_try_returns w h m imgs q t) as (v & s' & ->)
  end.
  run_py. eauto.
Qed.

Lemma try_except_skips {A} (body : M A) handler s v s' :
  body s = (Ok v, s') -> try_except body handler s = (Ok v, s').
Proof. intros E. unfold try_except. by rewrite E. Qed.

Lemma no_outer_log_gemini w images query :
  steps (unchanged is_outer_log) (gemini w images query).
Proof. unfold gemini. frame. Qed.

Lemma no_outer_log_gpt4 w images query :
  steps (unchanged is_outer_log) (gpt4 w images query).
Proof. unfold gpt4. frame. Qed.

Lemma no_outer_log_molmo w images query :
  steps (unchanged is_outer_log) (molmo w images query).
Proof. unfold molmo, molmo_try. frame. Qed.

(** X16. The gemini, gpt4 and molmo branches have a failure boundary of
    their own: once the branch has its inference object, nothing that
    goes wrong inside it reaches the outer handler of generate_response,
    whose log entry "Error generating response: ..." is then never
    written. *)
Theorem guarded_branch_keeps_failures w cache images query sid rh rw mc :
  handle_ready w cache mc ->
  let r := run cache (generate_response w images query sid rh rw mc) in
  List.filter is_outer_log (trace r.2) = [].
Proof.
  intros Hready r. subst r.
  set (s0 := (logger INFO ("Generating response using model '" +:+ mc +:+ "'.")
                (initial cache)).2).
  assert (Hbody : forall (branch : M PyVal),
            (exists v s', branch s0 = (Ok v, s')) ->
            steps (unchanged is_outer_log) branch ->
            forall handler,
              List.filter is_outer_log
                (trace (try_except
                          (logger INFO ("Generating response using model '"
                                        +:+ mc +:+ "'.") ;;; branch)
                          handler (initial cache)).2) = []).
  { intros branch (v & s' & E) Hs handler.
    erewrite try_except_skips; [| erewrite bind_ok; [exact E | reflexivity]].
    specialize (Hs s0). rewrite E in Hs. exact Hs. }
  destruct Hready as [[-> [h Hc]] | [[-> [client Hc]] | [-> (h & Hc & Hh)]]];
    unfold run, generate_response; cbn [String.eqb Ascii.eqb Bool.eqb];
    apply Hbody.
  - by apply (gemini_returns w images query s0 h).
  - apply no_outer_log_gemini.
  - by apply (gpt4_returns w images query s0 client).
  - apply no_outer_log_gpt4.
  - by apply (molmo_returns w images query s0 h).
  - apply no_outer_log_molmo.
Qed.

Lemma guarded_branch_keeps_failures_witness :
  let w := faulty_world (Exception "quota exceeded") in
  handle_ready w demo_cache "gpt4" /\
  trace (run demo_cache
           (generate_response w ["a.png"] "describe this" "s1" 280 280
              "gpt4")).2
  = [Log INFO "Generating response using model 'gpt4'.";
     PathExists "static/a.png";
     FileRead "static/a.png";
     ChatCompletionsCreate "gpt-4o"
       [ {| role := "user";
            content := [PText "describe this";
                        PImageUrl "data:image/jpeg;base64,bytes"] |} ] 1024;
     Log ERROR "Error in GPT-4 processing: quota exceeded"] /\
  List.filter is_outer_log
    (trace (run demo_cache
              (generate_response w ["a.png"] "describe this" "s1" 280 280
                 "gpt4")).2) = [].
Proof.
  cbv zeta.
  assert (Hr : handle_ready (faulty_world (Exception "quota exceeded"))
                 demo_cache "gpt4").
  { right. left. split; [reflexivity |]. exists "client". reflexivity. }
  split; [exact Hr |]. split; [reflexivity |].
  exact (guarded_branch_keeps_failures
           (faulty_world (Exception "quota exceeded")) demo_cache ["a.png"]
           "describe this" "s1" 280 280 "gpt4" Hr).
Defined.

(** ** Strings at the boundary *)

Lemma generate_response_str_unless_gpt4_witness :
  "gemini" <> "gpt4" /\
  exists text,
    (run demo_cache
       (generate_response (faulty_world (Exception "quota exceeded"))
          ["a.png"] "describe this" "s1" 280 280 "gemini")).1
    = Ok (PyStr text).
Proof.
  assert (Hne : "gemini" <> "gpt4") by discriminate.
  split; [exact Hne |].
  exact (generate_response_str_unless_gpt4
           (faulty_world (Exception "quota exceeded")) demo_cache ["a.png"]
           "describe this" "s1" 280 280 "gemini" Hne).
Defined.

(** ** The molmo branch, when generation fails *)

(** X18. On the molmo branch a failure of the preprocessor, once the first
    image is held, is caught by the branch and the image is still closed:
    the call returns "An error occurred while processing the images: "
    followed by the text of the exception, the error is logged, and after
    that the image is closed, so that none is held when the call
    returns. *)
Theorem molmo_failure_closes_image w cache a rest query sid rh rw h mode e :
  let first := os_path_join w "static" a in
  cache !! "molmo" = Some h ->
  module_half w (model h) = Ok tt ->
  os_path_exists w first = true ->
  PIL_open w first = Ok mode ->
  PIL_convert w first "RGB" = Ok tt ->
  processor_process w (processor h)
    [ {| im_id := 0; im_path := first; im_mode := "RGB" |} ] query = Raise e ->
  let r := run cache (generate_response w (a :: rest) query sid rh rw "molmo") in
  r.1 = Ok (PyStr (ADAPTER_FAILURE e)) /\
  images_open r.2 = [] /\
  trace r.2 =
    [Log INFO "Generating response using model 'molmo'.";
     LoadModel "molmo"; Half "molmo"; PathExists first; ImageOpen first;
     Log ERROR ("Error in Molmo processing: " +:+ str e);
     ImageClose 0].
Proof.
  intros first Hc Hh Hex Hop Hcv Hpp r. subst r first.
  run_py; rewrite ?take_0, Hc; run_py. rewrite Hh. run_py.
  rewrite Hex. run_py. rewrite Hop. run_py. rewrite Hcv. run_py.
  unfold molmo_try. run_py. rewrite Hpp. run_py.
  repeat split; reflexivity.
Qed.

Lemma molmo_failure_closes_image_witness :
  let w := faulty_world (Exception "out of memory") in
  demo_cache !! "molmo" = Some demo_handle /\
  (run demo_cache
     (generate_response w ["a.png"; "broken.png"] "describe this" "s1"
        280 280 "molmo")).1
  = Ok (PyStr "An error occurred while processing the images: out of memory").
Proof.
  cbv zeta.
  assert (Hc : demo_cache !! "molmo" = Some demo_handle)
    by (vm_compute; reflexivity).
  split; [exact Hc |].
  exact (proj1 (molmo_failure_closes_image
                  (faulty_world (Exception "out of memory")) demo_cache
                  "a.png" ["broken.png"] "describe this" "s1" 280 280
                  demo_handle "RGBA" (Exception "out of memory")
                  Hc eq_refl eq_refl eq_refl eq_refl eq_refl)).
Defined.
